(** * stock-trading-api: trade execution, price cache and candle store

    A shallow embedding of [app/models.py], [app/config.py],
    [app/market_data.py] and [app/routes.py].

    Conventions of the embedding:
    - a Python [float] amount (balance, price, quantity, fee) is an exact
      rational [Q]; a float division by zero raises [ZeroDivisionError];
    - a timezone-aware [datetime] is a number of seconds [Z];
    - a SQLAlchemy [Session] is a pair of databases, the committed one and
      the one the open transaction sees; [db.commit()] and [db.rollback()]
      copy one onto the other;
    - the Alpha Vantage HTTP endpoint is an oracle of the request
      environment, and every call to it is logged;
    - [raise] / [try ... except] is an error monad over that state. *)

From Stdlib Require Import Ascii String QArith Qround Lqa.
From stdpp Require Import base option list strings sorting gmap fin_maps.

Local Open Scope Z_scope.
Local Open Scope string_scope.
Local Open Scope list_scope.

(** ** [app/models.py]: enumerations *)

Inductive MarketType := STOCK | CRYPTO | FOREX.
Inductive TradeSide := BUY | SELL.

Global Instance MarketType_eq_dec : EqDecision MarketType.
Proof. solve_decision. Defined.
Global Instance TradeSide_eq_dec : EqDecision TradeSide.
Proof. solve_decision. Defined.

(** [side.value] *)
Definition TradeSide_value (s : TradeSide) : string :=
  match s with BUY => "buy" | SELL => "sell" end.

(** ** Python builtins used by the handlers *)

(** [str.upper()] on the ASCII range: [a]..[z] are shifted, every other
    byte is kept. *)
Definition ascii_upper (c : ascii) : ascii :=
  let n := nat_of_ascii c in
  if Nat.leb 97 n && Nat.leb n 122 then ascii_of_nat (n - 32) else c.

Fixpoint upper (s : string) : string :=
  match s with
  | EmptyString => EmptyString
  | String c s' => String (ascii_upper c) (upper s')
  end.

(** [int(x)]: truncation towards zero. *)
Definition int (x : Q) : Z :=
  if Qle_bool 0 x then Qfloor x else Qceiling x.

(** [a < b] on floats. *)
Definition Qltb (a b : Q) : bool := negb (Qle_bool b a).

(** [x in xs] for a list of strings. *)
Definition str_in (x : string) (xs : list string) : bool :=
  bool_decide (x ∈ xs).

(** ** [app/config.py] *)

Record Settings := {
  DEFAULT_BALANCE : Q;
  STOCK_TRANSACTION_FEE : Q;
  CRYPTO_TRANSACTION_FEE : Q;
  FOREX_TRANSACTION_FEE : Q
}.

(** The values of the class body, used when the environment overrides
    nothing. *)
Definition default_settings : Settings := {|
  DEFAULT_BALANCE := 100000;
  STOCK_TRANSACTION_FEE := 0;
  CRYPTO_TRANSACTION_FEE := 0;
  FOREX_TRANSACTION_FEE := 0
|}.

(** ** [app/models.py]: tables *)

(** [holdings], one row per [(user_id, symbol)] (the unique index
    [idx_user_symbol_unique]); the key carries those two columns. *)
Record Holding := {
  h_market : MarketType;
  h_quantity : Q;
  h_average_price : Q
}.

Record Trade := {
  t_id : nat;
  t_user_id : nat;
  t_symbol : string;
  t_market : MarketType;
  t_side : TradeSide;
  t_quantity : Q;
  t_price : Q;
  t_transaction_fee : Q;
  t_total_cost : Q;
  t_executed_at : Z
}.

Record PriceCache := {
  pc_symbol : string;
  pc_market : MarketType;
  pc_price : Q;
  pc_source : string;
  pc_timestamp : Z;
  pc_cached_at : Z
}.

Record HistoricalData := {
  hd_symbol : string;
  hd_market : MarketType;
  hd_resolution : string;
  hd_timestamp : Z;
  hd_open : Q;
  hd_high : Q;
  hd_low : Q;
  hd_close : Q;
  hd_volume : Q;
  hd_source : string
}.

(** The database: [users] maps a user id to its [balance]; the other
    tables are kept in insertion order. *)
Record Db := {
  users : gmap nat Q;
  holdings : gmap (nat * string) Holding;
  trades : list Trade;
  price_cache : list PriceCache;
  historical_data : list HistoricalData
}.

(** ** Exceptions *)

(** The [detail] of an [HTTPException] is kept structured: the amounts an
    f-string interpolates are arguments, and [str(e)] keeps [e]. *)
Inductive Exception :=
  | HTTPException (status_code : Z) (detail : Detail)
  | RequestValidationError
  | ValueError (msg : string)
  | ZeroDivisionError
  | HTTPStatusError
  | SQLAlchemyError
with Detail :=
  | Text (msg : string)
  | Insufficient_balance (required available : Q)
  | Insufficient_holdings (required available : Q)
  | Str (e : Exception).

Inductive Outcome (A : Type) :=
  | Return (a : A)
  | Raise (e : Exception).
Arguments Return {A} a.
Arguments Raise {A} e.

(** ** The Alpha Vantage endpoint *)

Record Values := {
  v_open : Q; v_high : Q; v_low : Q; v_close : Q; v_volume : Q
}.

(** The query parameters of [client.get(BASE_URL, params=params)]. *)
Inductive Request :=
  | GLOBAL_QUOTE (symbol : string)
  | CURRENCY_EXCHANGE_RATE (from_currency to_currency : string)
  | TIME_SERIES (function symbol interval : string)
  | DIGITAL_CURRENCY_DAILY (symbol : string)
  | FX_SERIES (function from_symbol to_symbol interval : string).

(** What the handlers read of the answer: [raise_for_status] failed, the
    expected key is missing, the quoted price, or the time series (a JSON
    object: ISO timestamps to values, keys pairwise distinct). *)
Inductive Reply :=
  | HttpFailure
  | NoData
  | Quote (price : Q)
  | Series (time_series : list (string * Values)).

(** ** Request environment and state *)

Record Env := {
  now : Z;
  alpha_vantage : Request → Reply;
  commit_ok : bool
}.

Record Session := {
  committed : Db;
  pending : Db
}.

Record World := {
  db : Session;
  provider_calls : list Request
}.

(** A session opened on a database. *)
Definition begin (d : Db) : Session := {| committed := d; pending := d |}.

Definition Handler (A : Type) : Type := Env → World → Outcome A * World.

Global Instance Handler_ret : MRet Handler := λ A a _ w, (Return a, w).
Global Instance Handler_bind : MBind Handler := λ A B f m env w,
  match m env w with
  | (Return a, w') => f a env w'
  | (Raise e, w') => (Raise e, w')
  end.

Definition raise {A} (e : Exception) : Handler A := λ _ w, (Raise e, w).

(** [try: body except Exception as e: handler e] *)
Definition try_except {A} (body : Handler A) (handler : Exception → Handler A)
  : Handler A := λ env w,
  match body env w with
  | (Return a, w') => (Return a, w')
  | (Raise e, w') => handler e env w'
  end.

Definition ask : Handler Env := λ env w, (Return env, w).

Definition query : Handler Db := λ _ w, (Return (pending (db w)), w).

Definition update (f : Db → Db) : Handler () := λ _ w,
  (Return (),
   {| db := {| committed := committed (db w); pending := f (pending (db w)) |};
      provider_calls := provider_calls w |}).

(** [db.commit()] *)
Definition db_commit : Handler () := λ env w,
  if commit_ok env
  then (Return (),
        {| db := begin (pending (db w)); provider_calls := provider_calls w |})
  else (Raise SQLAlchemyError, w).

(** [db.rollback()] *)
Definition db_rollback : Handler () := λ _ w,
  (Return (),
   {| db := begin (committed (db w)); provider_calls := provider_calls w |}).

(** [await client.get(...)], [raise_for_status()] and [response.json()] *)
Definition client_get (params : Request) : Handler Reply := λ env w,
  let w' := {| db := db w; provider_calls := provider_calls w ++ [params] |} in
  match alpha_vantage env params with
  | HttpFailure => (Raise HTTPStatusError, w')
  | r => (Return r, w')
  end.

(** Division of floats. *)
Definition truediv (a b : Q) : Handler Q :=
  if Qeq_bool b 0 then raise ZeroDivisionError else mret (a / b)%Q.

(** ** [app/market_data.py] *)

Module MarketDataService.

Definition CRYPTO_SYMBOLS : list string :=
  ["BTC"; "ETH"; "USDT"; "BNB"; "XRP"; "ADA"; "DOGE"; "SOL"; "TRX"; "DOT"].
Definition FOREX_PAIRS : list string :=
  ["EUR"; "GBP"; "JPY"; "CHF"; "AUD"; "CAD"; "NZD"; "CNY"].

Definition detect_market (symbol : string) : MarketType :=
  let symbol_upper := upper symbol in
  if str_in symbol_upper CRYPTO_SYMBOLS then CRYPTO
  else if Nat.eqb (String.length symbol_upper) 6
          && str_in (substring 0 3 symbol_upper) FOREX_PAIRS then FOREX
  else STOCK.

Record PriceData := {
  pd_symbol : string;
  pd_market : MarketType;
  pd_price : Q;
  pd_source : string;
  pd_timestamp : Z
}.

Definition _get_stock_price (symbol : string) : Handler PriceData :=
  data ← client_get (GLOBAL_QUOTE symbol);
  match data with
  | Quote price =>
      env ← ask;
      mret {| pd_symbol := symbol; pd_market := STOCK; pd_price := price;
              pd_source := "alpha_vantage"; pd_timestamp := now env |}
  | _ => raise (ValueError ("No data found for symbol " +:+ symbol))
  end.

Definition _get_crypto_price (symbol : string) : Handler PriceData :=
  data ← client_get (CURRENCY_EXCHANGE_RATE symbol "USD");
  match data with
  | Quote price =>
      env ← ask;
      mret {| pd_symbol := symbol; pd_market := CRYPTO; pd_price := price;
              pd_source := "alpha_vantage"; pd_timestamp := now env |}
  | _ => raise (ValueError ("No data found for crypto " +:+ symbol))
  end.

Definition _get_forex_price (symbol : string) : Handler PriceData :=
  let from_currency := substring 0 3 symbol in
  let to_currency := substring 3 3 symbol in
  data ← client_get (CURRENCY_EXCHANGE_RATE from_currency to_currency);
  match data with
  | Quote price =>
      env ← ask;
      mret {| pd_symbol := symbol; pd_market := FOREX; pd_price := price;
              pd_source := "alpha_vantage"; pd_timestamp := now env |}
  | _ => raise (ValueError ("No data found for forex " +:+ symbol))
  end.

(** [get_price(symbol)], [market] left to its default [None]. *)
Definition get_price (symbol : string) : Handler PriceData :=
  let market := detect_market symbol in
  match market with
  | CRYPTO => _get_crypto_price symbol
  | FOREX => _get_forex_price symbol
  | STOCK => _get_stock_price symbol
  end.

End MarketDataService.

(** ** [app/schemas.py] *)

Record PriceResponse := {
  pr_symbol : string;
  pr_market : MarketType;
  pr_price : Q;
  pr_source : string;
  pr_updatedAt : Z
}.

Record TradeRequest := {
  tr_symbol : string;
  tr_side : TradeSide;
  tr_quantity : Q
}.

(** [quantity: float = Field(gt=0)] *)
Definition TradeRequest_valid (r : TradeRequest) : bool :=
  Qltb 0 (tr_quantity r).

(** [TradeResponse], the two dictionaries flattened. *)
Record TradeResponse := {
  status : string;
  trade_symbol : string;
  trade_side : string;
  trade_quantity : Q;
  trade_price : Q;
  trade_executed_by_uid : nat;
  result_trade_id : nat;
  result_executed_at : Z;
  result_total_cost : Q;
  result_transaction_fee : Q;
  result_new_balance : Q
}.

(** ** [app/routes.py] *)

(** [current_user.balance]; [current_user] is a row of [users], so the
    default is never read. *)
Definition balance_of (d : Db) (current_user : nat) : Q :=
  default 0%Q (users d !! current_user).

Definition set_balance (current_user : nat) (b : Q) (d : Db) : Db :=
  {| users := <[current_user := b]> (users d); holdings := holdings d;
     trades := trades d; price_cache := price_cache d;
     historical_data := historical_data d |}.

Definition set_holdings (hs : gmap (nat * string) Holding) (d : Db) : Db :=
  {| users := users d; holdings := hs; trades := trades d;
     price_cache := price_cache d; historical_data := historical_data d |}.

Definition add_trade (t : Trade) (d : Db) : Db :=
  {| users := users d; holdings := holdings d; trades := trades d ++ [t];
     price_cache := price_cache d; historical_data := historical_data d |}.

Definition add_price_cache (c : PriceCache) (d : Db) : Db :=
  {| users := users d; holdings := holdings d; trades := trades d;
     price_cache := price_cache d ++ [c];
     historical_data := historical_data d |}.

Definition add_historical_data (h : HistoricalData) (d : Db) : Db :=
  {| users := users d; holdings := holdings d; trades := trades d;
     price_cache := price_cache d;
     historical_data := historical_data d ++ [h] |}.

(** The filter of the cache query of [get_price]:
    [symbol == ...] and [cached_at >= now - timedelta(minutes=1)]. *)
Definition cache_fresh (symbol : string) (t : Z) (c : PriceCache) : bool :=
  bool_decide (pc_symbol c = symbol) && Z.leb (t - 60) (pc_cached_at c).

(** [db.query(PriceCache).filter(...).first()] *)
Definition cache_first (symbol : string) (t : Z) (cache : list PriceCache)
  : option PriceCache :=
  head (filter (λ c, Is_true (cache_fresh symbol t c)) cache).

Definition get_price (symbol : string) (current_user : nat)
  : Handler PriceResponse :=
  try_except
    (env ← ask;
     d ← query;
     let cache_entry := cache_first (upper symbol) (now env) (price_cache d) in
     match cache_entry with
     | Some cache_entry =>
         mret {| pr_symbol := pc_symbol cache_entry;
                 pr_market := pc_market cache_entry;
                 pr_price := pc_price cache_entry;
                 pr_source := pc_source cache_entry;
                 pr_updatedAt := pc_timestamp cache_entry |}
     | None =>
         price_data ← MarketDataService.get_price (upper symbol);
         let cache :=
           {| pc_symbol := MarketDataService.pd_symbol price_data;
              pc_market := MarketDataService.pd_market price_data;
              pc_price := MarketDataService.pd_price price_data;
              pc_source := MarketDataService.pd_source price_data;
              pc_timestamp := MarketDataService.pd_timestamp price_data;
              pc_cached_at := now env |} in
         update (add_price_cache cache);;
         db_commit;;
         mret {| pr_symbol := MarketDataService.pd_symbol price_data;
                 pr_market := MarketDataService.pd_market price_data;
                 pr_price := MarketDataService.pd_price price_data;
                 pr_source := MarketDataService.pd_source price_data;
                 pr_updatedAt := MarketDataService.pd_timestamp price_data |}
     end)
    (λ e, raise (HTTPException 400 (Str e))).

Definition transaction_fee (settings : Settings) (market : MarketType) : Q :=
  match market with
  | STOCK => STOCK_TRANSACTION_FEE settings
  | CRYPTO => CRYPTO_TRANSACTION_FEE settings
  | FOREX => FOREX_TRANSACTION_FEE settings
  end.

(** The [if side == TradeSide.BUY: ... else: ...] block of
    [execute_trade]. *)
Definition apply_side (current_user : nat) (symbol : string)
    (market : MarketType) (side : TradeSide) (quantity price fee total_cost : Q)
  : Handler () :=
  match side with
  | BUY =>
      d ← query;
      if Qltb (balance_of d current_user) total_cost then
        raise (HTTPException 400
                 (Insufficient_balance total_cost (balance_of d current_user)))
      else
        update (set_balance current_user
                  (balance_of d current_user - total_cost)%Q);;
        d ← query;
        match holdings d !! (current_user, symbol) with
        | Some holding =>
            let total_quantity := (h_quantity holding + quantity)%Q in
            average_price ←
              truediv (h_quantity holding * h_average_price holding
                       + quantity * price)%Q total_quantity;
            update (λ d, set_holdings
              (<[(current_user, symbol) :=
                   {| h_market := h_market holding;
                      h_quantity := total_quantity;
                      h_average_price := average_price |}]> (holdings d)) d)
        | None =>
            update (λ d, set_holdings
              (<[(current_user, symbol) :=
                   {| h_market := market;
                      h_quantity := quantity;
                      h_average_price := price |}]> (holdings d)) d)
        end
  | SELL =>
      d ← query;
      match holdings d !! (current_user, symbol) with
      | Some holding =>
          if Qltb (h_quantity holding) quantity then
            raise (HTTPException 400
                     (Insufficient_holdings quantity (h_quantity holding)))
          else
            update (set_balance current_user
                      (balance_of d current_user + (quantity * price - fee))%Q);;
            let quantity' := (h_quantity holding - quantity)%Q in
            if Qeq_bool quantity' 0 then
              update (λ d, set_holdings
                             (delete (current_user, symbol) (holdings d)) d)
            else
              update (λ d, set_holdings
                (<[(current_user, symbol) :=
                     {| h_market := h_market holding;
                        h_quantity := quantity';
                        h_average_price := h_average_price holding |}]>
                   (holdings d)) d)
      | None =>
          raise (HTTPException 400 (Insufficient_holdings quantity 0))
      end
  end.

(** [settings] is the module-level [settings] object. The id and the
    [executed_at] that the insert assigns, and that [db.refresh(trade)]
    reads back, are computed where the row is built: the next id of an
    append-only table and the time of the request. *)
Definition execute_trade (settings : Settings) (trade_request : TradeRequest)
    (current_user : nat) : Handler TradeResponse :=
  let symbol := upper (tr_symbol trade_request) in
  let side := tr_side trade_request in
  let quantity := tr_quantity trade_request in
  try_except
    (price_data ← MarketDataService.get_price symbol;
     let price := MarketDataService.pd_price price_data in
     let market := MarketDataService.pd_market price_data in
     (if bool_decide (market = STOCK)
         && negb (Qeq_bool quantity (inject_Z (int quantity)))
      then raise (HTTPException 400
                    (Text "Stock trades require integer quantities"))
      else mret ());;
     let fee := transaction_fee settings market in
     let total_cost := (quantity * price + fee)%Q in
     apply_side current_user symbol market side quantity price fee total_cost;;
     env ← ask;
     d ← query;
     let trade :=
       {| t_id := S (length (trades d)); t_user_id := current_user;
          t_symbol := symbol; t_market := market; t_side := side;
          t_quantity := quantity; t_price := price;
          t_transaction_fee := fee; t_total_cost := total_cost;
          t_executed_at := now env |} in
     update (add_trade trade);;
     db_commit;;
     d ← query;
     mret {| status := "success";
             trade_symbol := symbol;
             trade_side := TradeSide_value side;
             trade_quantity := quantity;
             trade_price := price;
             trade_executed_by_uid := current_user;
             result_trade_id := t_id trade;
             result_executed_at := t_executed_at trade;
             result_total_cost := total_cost;
             result_transaction_fee := fee;
             result_new_balance := balance_of d current_user |})
    (λ e, match e with
          | HTTPException _ _ => raise e
          | _ => db_rollback;; raise (HTTPException 400 (Str e))
          end).

(** The [POST /trade] endpoint: the request body is validated against
    [TradeRequest] before the handler runs. *)
Definition post_trade (settings : Settings) (trade_request : TradeRequest)
    (current_user : nat) : Handler TradeResponse :=
  if TradeRequest_valid trade_request
  then execute_trade settings trade_request current_user
  else raise RequestValidationError.

(** ** Historical candles *)

Record Candle := {
  c_timestamp : Z;
  c_open : Q;
  c_high : Q;
  c_low : Q;
  c_close : Q;
  c_volume : Q
}.

Record HistoryResponse := {
  hr_symbol : string;
  hr_market : MarketType;
  hr_resolution : string;
  hr_count : nat;
  hr_history : list Candle;
  hr_source : string;
  hr_updatedAt : Z
}.

(** [for x in xs: body x] *)
Fixpoint for_each {A} (xs : list A) (body : A → Handler ()) : Handler () :=
  match xs with
  | [] => mret ()
  | x :: xs' => body x;; for_each xs' body
  end.

(** Descending order on the keys of a time series, the order of
    [sorted(time_series.items(), reverse=True)]. *)
Definition key_desc (a b : string * Values) : Prop :=
  String.leb b.1 a.1 = true.

(** Descending order on stored timestamps, the order of
    [order_by(HistoricalData.timestamp.desc())]. *)
Definition timestamp_desc (a b : HistoricalData) : Prop :=
  (hd_timestamp b ≤ hd_timestamp a)%Z.

Global Instance key_desc_dec a b : Decision (key_desc a b).
Proof. unfold key_desc. apply _. Defined.
Global Instance timestamp_desc_dec a b : Decision (timestamp_desc a b).
Proof. unfold timestamp_desc. apply _. Defined.

Section History.

(** [int(datetime.fromisoformat(s).timestamp())], with the [' '] to ['T']
    replacement and the UTC localisation that precede it: the seconds a
    key of the time series stands for. *)
Variable fromisoformat : string → Z.

(** The loop that ends the three [_get_*_history] methods. *)
Definition candles_of (volume : Values → Q) (limit : nat)
    (time_series : list (string * Values)) : list Candle :=
  let candles :=
    (λ item : string * Values,
       {| c_timestamp := fromisoformat item.1;
          c_open := v_open item.2;
          c_high := v_high item.2;
          c_low := v_low item.2;
          c_close := v_close item.2;
          c_volume := volume item.2 |})
    <$> take limit (merge_sort key_desc time_series) in
  reverse candles.

Definition intraday (resolution : string) : bool :=
  str_in resolution ["1"; "5"; "15"; "30"; "60"].

Definition _get_stock_history (symbol resolution : string) (limit : nat)
  : Handler (list Candle) :=
  params ←
    (if intraday resolution then
       mret (TIME_SERIES "TIME_SERIES_INTRADAY" symbol (resolution +:+ "min"))
     else if bool_decide (resolution = "D") then
       mret (TIME_SERIES "TIME_SERIES_DAILY" symbol "")
     else if bool_decide (resolution = "W") then
       mret (TIME_SERIES "TIME_SERIES_WEEKLY" symbol "")
     else if bool_decide (resolution = "M") then
       mret (TIME_SERIES "TIME_SERIES_MONTHLY" symbol "")
     else raise (ValueError ("Unsupported resolution: " +:+ resolution)));
  data ← client_get params;
  match data with
  | Series time_series => mret (candles_of v_volume limit time_series)
  | _ => raise (ValueError ("No historical data found for " +:+ symbol))
  end.

Definition _get_crypto_history (symbol resolution : string) (limit : nat)
  : Handler (list Candle) :=
  data ← client_get (DIGITAL_CURRENCY_DAILY symbol);
  match data with
  | Series time_series => mret (candles_of v_volume limit time_series)
  | _ => raise (ValueError ("No historical data found for " +:+ symbol))
  end.

Definition _get_forex_history (symbol resolution : string) (limit : nat)
  : Handler (list Candle) :=
  let from_currency := substring 0 3 symbol in
  let to_currency := substring 3 3 symbol in
  let params :=
    if intraday resolution
    then FX_SERIES "FX_INTRADAY" from_currency to_currency
           (resolution +:+ "min")
    else FX_SERIES "FX_DAILY" from_currency to_currency "" in
  data ← client_get params;
  match data with
  | Series time_series => mret (candles_of (λ _, 0%Q) limit time_series)
  | _ => raise (ValueError ("No historical data found for " +:+ symbol))
  end.

Definition get_historical_data (symbol resolution : string) (limit : nat)
    (market : MarketType) : Handler (list Candle) :=
  match market with
  | STOCK => _get_stock_history symbol resolution limit
  | CRYPTO => _get_crypto_history symbol resolution limit
  | FOREX => _get_forex_history symbol resolution limit
  end.

Definition RESOLUTION_MAP : gmap string string :=
  list_to_map
    [("1m", "1"); ("5m", "5"); ("15m", "15"); ("30m", "30");
     ("1h", "60"); ("60m", "60");
     ("2h", "120"); ("120m", "120");
     ("4h", "240"); ("240m", "240");
     ("1d", "D"); ("d", "D");
     ("1w", "W"); ("w", "W");
     ("1M", "M"); ("1mo", "M"); ("m", "M")].

Definition normalize_resolution (resolution : string) : string :=
  default resolution (RESOLUTION_MAP !! resolution).

(** [if ts:] on an [Optional[int]]: [None] and [0] are both false. *)
Definition truthy (ts : option Z) : option Z :=
  match ts with
  | Some t => if Z.eqb t 0 then None else Some t
  | None => None
  end.

(** The filters of the cache query of [get_history]. *)
Definition history_filter (symbol canonical_resolution : string)
    (start_ts end_ts : option Z) (h : HistoricalData) : bool :=
  bool_decide (hd_symbol h = symbol)
  && bool_decide (hd_resolution h = canonical_resolution)
  && match truthy start_ts with
     | Some t => Z.leb t (hd_timestamp h)
     | None => true
     end
  && match truthy end_ts with
     | Some t => Z.ltb (hd_timestamp h) t
     | None => true
     end.

Definition candle_of_row (candle : HistoricalData) : Candle :=
  {| c_timestamp := hd_timestamp candle;
     c_open := hd_open candle;
     c_high := hd_high candle;
     c_low := hd_low candle;
     c_close := hd_close candle;
     c_volume := hd_volume candle |}.

(** The body of the caching loop: insert the candle unless a row with its
    key is there. *)
Definition cache_candle (symbol canonical_resolution : string)
    (market : MarketType) (candle_data : Candle) : Handler () :=
  d ← query;
  let existing :=
    head (filter (λ h, hd_symbol h = symbol
                       ∧ hd_resolution h = canonical_resolution
                       ∧ hd_timestamp h = c_timestamp candle_data)
            (historical_data d)) in
  match existing with
  | Some _ => mret ()
  | None =>
      update (add_historical_data
        {| hd_symbol := symbol; hd_market := market;
           hd_resolution := canonical_resolution;
           hd_timestamp := c_timestamp candle_data;
           hd_open := c_open candle_data;
           hd_high := c_high candle_data;
           hd_low := c_low candle_data;
           hd_close := c_close candle_data;
           hd_volume := c_volume candle_data;
           hd_source := "alpha_vantage" |})
  end.

Definition get_history (symbol resolution : string) (limit : nat)
    (start_ts end_ts : option Z) (current_user : nat)
  : Handler HistoryResponse :=
  try_except
    (let canonical_resolution := normalize_resolution resolution in
     let symbol := upper symbol in
     let market := MarketDataService.detect_market symbol in
     env ← ask;
     d ← query;
     let cached_data :=
       take limit
         (merge_sort timestamp_desc
            (filter (λ h, Is_true (history_filter symbol canonical_resolution
                                     start_ts end_ts h))
               (historical_data d))) in
     if Nat.leb limit (length cached_data) then
       let candles := candle_of_row <$> reverse cached_data in
       mret {| hr_symbol := symbol; hr_market := market;
               hr_resolution := resolution; hr_count := length candles;
               hr_history := candles; hr_source := "cache";
               hr_updatedAt := now env |}
     else
       history_data ←
         get_historical_data symbol canonical_resolution limit market;
       for_each history_data
         (cache_candle symbol canonical_resolution market);;
       db_commit;;
       let candles := history_data in
       mret {| hr_symbol := symbol; hr_market := market;
               hr_resolution := resolution; hr_count := length candles;
               hr_history := candles; hr_source := "alpha_vantage";
               hr_updatedAt := now env |})
    (λ e, raise (HTTPException 400 (Str e))).

End History.

(** * Vocabulary of the statements *)

(** A request that starts on database [d] after the provider calls
    [calls]. *)
Definition world (d : Db) (calls : list Request) : World :=
  {| db := begin d; provider_calls := calls |}.

(** The one query [MarketDataService.get_price] sends for a symbol. *)
Definition price_request (symbol : string) : Request :=
  match MarketDataService.detect_market symbol with
  | STOCK => GLOBAL_QUOTE symbol
  | CRYPTO => CURRENCY_EXCHANGE_RATE symbol "USD"
  | FOREX => CURRENCY_EXCHANGE_RATE (substring 0 3 symbol) (substring 3 3 symbol)
  end.

Definition is_HTTPException (e : Exception) : bool :=
  match e with HTTPException _ _ => true | _ => false end.

(** The quantity check of [execute_trade] passes. *)
Definition quantity_ok (market : MarketType) (quantity : Q) : bool :=
  negb (bool_decide (market = STOCK)
        && negb (Qeq_bool quantity (inject_Z (int quantity)))).

(** [history[i].timestamp < history[i+1].timestamp] for every [i]. *)
Definition chronological (history : list Candle) : Prop :=
  ∀ i a b, history !! i = Some a → history !! S i = Some b →
    (c_timestamp a < c_timestamp b)%Z.

(** The unique index [idx_symbol_resolution_timestamp]. *)
Definition candle_key (h : HistoricalData) : string * string * Z :=
  (hd_symbol h, hd_resolution h, hd_timestamp h).
Definition unique_candles (d : Db) : Prop :=
  NoDup (candle_key <$> historical_data d).


(** The ledger row a BUY of [quantity] at [price] leaves, given the row
    it found. *)
Definition holding_after_buy (market : MarketType) (quantity price : Q)
    (found : option Holding) : Holding :=
  match found with
  | Some h =>
      {| h_market := h_market h;
         h_quantity := (h_quantity h + quantity)%Q;
         h_average_price :=
           ((h_quantity h * h_average_price h + quantity * price)
            / (h_quantity h + quantity))%Q |}
  | None =>
      {| h_market := market; h_quantity := quantity;
         h_average_price := price |}
  end.

(** The ledger a SELL of [quantity] leaves, given the row [h] it found
    under [key]. *)
Definition holdings_after_sell (key : nat * string) (quantity : Q)
    (h : Holding) (hs : gmap (nat * string) Holding)
  : gmap (nat * string) Holding :=
  if Qeq_bool (h_quantity h - quantity) 0 then delete key hs
  else <[key := {| h_market := h_market h;
                   h_quantity := (h_quantity h - quantity)%Q;
                   h_average_price := h_average_price h |}]> hs.



(** The rows the cache query of [get_history] selects, before ordering
    and [limit]. *)
Definition stored_candles (symbol resolution : string)
    (start_ts end_ts : option Z) (d : Db) : list HistoricalData :=
  filter (λ h, Is_true (history_filter (upper symbol)
                          (normalize_resolution resolution)
                          start_ts end_ts h))
    (historical_data d).

(** A time series as the provider sends it: a JSON object has pairwise
    distinct keys, and keys of one ISO format come in the order of the
    instants they denote. *)
Definition series_ok (fromisoformat : string → Z)
    (time_series : list (string * Values)) : Prop :=
  NoDup time_series.*1
  ∧ ∀ k1 k2, k1 ∈ time_series.*1 → k2 ∈ time_series.*1 →
      String.ltb k1 k2 = true → (fromisoformat k1 < fromisoformat k2)%Z.

(** * Concrete requests, databases and environments *)

(** A provider that answers every query with the price [p], at time [t]. *)
Definition quoting (p : Q) (t : Z) : Env :=
  {| now := t; alpha_vantage := λ _, Quote p; commit_ok := true |}.

(** [STOCK_TRANSACTION_FEE=10] in the environment. *)
Definition fee_settings : Settings :=
  {| DEFAULT_BALANCE := 100000; STOCK_TRANSACTION_FEE := 10;
     CRYPTO_TRANSACTION_FEE := 0; FOREX_TRANSACTION_FEE := 0 |}.

Definition order (symbol : string) (side : TradeSide) (quantity : Q)
  : TradeRequest :=
  {| tr_symbol := symbol; tr_side := side; tr_quantity := quantity |}.

(** User 1 with the default balance and nothing else. *)
Definition fresh_db : Db :=
  {| users := {[ 1%nat := 100000%Q ]}; holdings := ∅; trades := [];
     price_cache := []; historical_data := [] |}.

(** User 1 with no cash and one share of AAPL bought at 5. *)
Definition ledger_db : Db :=
  {| users := {[ 1%nat := 0%Q ]};
     holdings := {[ (1%nat, "AAPL") :=
                      {| h_market := STOCK; h_quantity := 1;
                         h_average_price := 5 |} ]};
     trades := []; price_cache := []; historical_data := [] |}.


Definition flat : Values :=
  {| v_open := 1; v_high := 2; v_low := 1; v_close := 2; v_volume := 10 |}.

(** Three daily bars, not in order. *)
Definition daily_series : list (string * Values) :=
  [("2024-01-02", flat); ("2024-01-01", flat); ("2024-01-03", flat)].

(** [fromisoformat] on the keys of [daily_series]. *)
Definition daily_clock (s : string) : Z :=
  if decide (s = "2024-01-01") then 1704067200
  else if decide (s = "2024-01-02") then 1704153600
  else 1704240000.

(** A provider that answers every query with [daily_series]. *)
Definition daily_env : Env :=
  {| now := 1704300000; alpha_vantage := λ _, Series daily_series;
     commit_ok := true |}.

(** * The other routes and the scripts *)

(** ** [app/routes.py]: portfolio valuation *)

Record HoldingItem := {
  hi_symbol : string;
  hi_market : MarketType;
  hi_quantity : Q;
  hi_average_price : Q;
  hi_current_price : option Q;
  hi_unrealized_pnl : option Q;
  hi_unrealized_pnl_percent : option Q
}.

Record HoldingsResponse := {
  hs_holdings : list HoldingItem;
  hs_total_value : Q;
  hs_cash_balance : Q;
  hs_total_portfolio_value : Q;
  hs_realized_pnl : option Q
}.

(** [for x in xs: body], the body updating local variables [s]. *)
Fixpoint for_fold {A S} (xs : list A) (body : A → S → Handler S) (s : S)
  : Handler S :=
  match xs with
  | [] => mret s
  | x :: xs' => s' ← body x s; for_fold xs' body s'
  end.

(** The body of the loop of [get_holdings] for one row; the local
    variables are [holding_items] and [total_value]. *)
Definition value_holding (symbol : string) (holding : Holding)
    (locals : list HoldingItem * Q) : Handler (list HoldingItem * Q) :=
  try_except
    (price_data ← MarketDataService.get_price symbol;
     let current_price := MarketDataService.pd_price price_data in
     let unrealized_pnl :=
       ((current_price - h_average_price holding) * h_quantity holding)%Q in
     ratio ← truediv (current_price - h_average_price holding)%Q
                (h_average_price holding);
     let unrealized_pnl_percent := (ratio * 100)%Q in
     let position_value := (current_price * h_quantity holding)%Q in
     mret (locals.1 ++
             [{| hi_symbol := symbol; hi_market := h_market holding;
                 hi_quantity := h_quantity holding;
                 hi_average_price := h_average_price holding;
                 hi_current_price := Some current_price;
                 hi_unrealized_pnl := Some unrealized_pnl;
                 hi_unrealized_pnl_percent := Some unrealized_pnl_percent |}],
           (locals.2 + position_value)%Q))
    (λ _,
       mret (locals.1 ++
               [{| hi_symbol := symbol; hi_market := h_market holding;
                   hi_quantity := h_quantity holding;
                   hi_average_price := h_average_price holding;
                   hi_current_price := None;
                   hi_unrealized_pnl := None;
                   hi_unrealized_pnl_percent := None |}],
             locals.2)).

(** [db.query(Holding).filter(Holding.user_id == current_user.id).all()],
    in the order the table enumerates its rows. *)
Definition holdings_of (current_user : nat) (d : Db)
  : list (nat * string * Holding) :=
  filter (λ row, row.1.1 = current_user) (map_to_list (holdings d)).

Definition get_holdings (settings : Settings) (current_user : nat)
  : Handler HoldingsResponse :=
  d ← query;
  let holdings := holdings_of current_user d in
  locals ← for_fold holdings (λ row, value_holding row.1.2 row.2) ([], 0%Q);
  let holding_items := locals.1 in
  let total_value := locals.2 in
  d ← query;
  let trades := filter (λ t, t_user_id t = current_user) (trades d) in
  let realized_pnl :=
    match trades with
    | [] => None
    | _ => Some (balance_of d current_user - DEFAULT_BALANCE settings)%Q
    end in
  let total_portfolio_value := (balance_of d current_user + total_value)%Q in
  mret {| hs_holdings := holding_items;
          hs_total_value := total_value;
          hs_cash_balance := balance_of d current_user;
          hs_total_portfolio_value := total_portfolio_value;
          hs_realized_pnl := realized_pnl |}.

(** [get_balance] *)
Definition get_balance (current_user : nat) : Handler Q :=
  d ← query; mret (balance_of d current_user).

(** What a listed position is worth: its current price times its
    quantity, nothing when it has no current price. *)
Definition position_value (item : HoldingItem) : Q :=
  match hi_current_price item with
  | Some p => (p * hi_quantity item)%Q
  | None => 0%Q
  end.

(** The price a holding is listed with: the provider's quote, unless the
    fetch failed or the percentage divides by a zero average price. *)
Definition listed_price (env : Env) (symbol : string) (holding : Holding)
  : option Q :=
  match alpha_vantage env (price_request symbol) with
  | Quote p => if Qeq_bool (h_average_price holding) 0 then None else Some p
  | _ => None
  end.

(** ** Market hours *)

(** [str.lower()] on the ASCII range. *)
Definition ascii_lower (c : ascii) : ascii :=
  let n := nat_of_ascii c in
  if Nat.leb 65 n && Nat.leb n 90 then ascii_of_nat (n + 32) else c.

Fixpoint lower (s : string) : string :=
  match s with
  | EmptyString => EmptyString
  | String c s' => String (ascii_lower c) (lower s')
  end.

(** [MarketType(value)]: the member with that value, or [ValueError]. *)
Definition MarketType_of_value (value : string) : Handler MarketType :=
  if bool_decide (value = "stock") then mret STOCK
  else if bool_decide (value = "crypto") then mret CRYPTO
  else if bool_decide (value = "forex") then mret FOREX
  else raise (ValueError ("'" +:+ value +:+ "' is not a valid MarketType")).

(** What [is_market_open] reads of
    [datetime.now(pytz.timezone('US/Eastern'))]: [weekday()], Monday being
    0, and the time of day. *)
Record LocalTime := {
  weekday : nat;
  hour : nat;
  minute : nat;
  second : nat;
  microsecond : nat
}.

(** [a <= b] for two datetimes of the same day: the fields in order. *)
Definition time_le (a b : LocalTime) : bool :=
  if Nat.ltb (hour a) (hour b) then true
  else if Nat.ltb (hour b) (hour a) then false
  else if Nat.ltb (minute a) (minute b) then true
  else if Nat.ltb (minute b) (minute a) then false
  else if Nat.ltb (second a) (second b) then true
  else if Nat.ltb (second b) (second a) then false
  else Nat.leb (microsecond a) (microsecond b).

(** [now.replace(hour=h, minute=m, second=0, microsecond=0)] *)
Definition replace_time (now : LocalTime) (h m : nat) : LocalTime :=
  {| weekday := weekday now; hour := h; minute := m; second := 0;
     microsecond := 0 |}.

Definition is_market_open (now : LocalTime) (market : MarketType) : bool :=
  match market with
  | CRYPTO => true
  | FOREX => Nat.ltb (weekday now) 5
  | STOCK =>
      if Nat.leb 5 (weekday now) then false
      else
        let market_open := replace_time now 9 30 in
        let market_close := replace_time now 16 0 in
        time_le market_open now && time_le now market_close
  end.

(** A query parameter that is given and not empty. *)
Definition given (parameter : option string) : option string :=
  match parameter with
  | Some "" => None
  | p => p
  end.

(** [get_market_status]; [now] is the Eastern time of the call. *)
Definition get_market_status (now : LocalTime) (symbol market : option string)
    (current_user : nat) : Handler bool :=
  try_except
    (market_type ←
       match given symbol with
       | Some symbol => mret (MarketDataService.detect_market (upper symbol))
       | None =>
           match given market with
           | Some market => MarketType_of_value (lower market)
           | None =>
               raise (HTTPException 400
                        (Text "Either 'symbol' or 'market' parameter is required"))
           end
       end;
     let is_open := is_market_open now market_type in
     mret is_open)
    (λ e, match e with
          | ValueError _ => raise (HTTPException 400 (Str e))
          | _ => raise e
          end).

(** ** [scripts/reset_user.py] *)

Record ResetReport := {
  rr_user_id : nat;
  rr_trades_deleted : nat;
  rr_holdings_deleted : nat;
  rr_balance : Q
}.

Definition set_trades (ts : list Trade) (d : Db) : Db :=
  {| users := users d; holdings := holdings d; trades := ts;
     price_cache := price_cache d; historical_data := historical_data d |}.

(** [reset_user(api_key)]. [user_by_api_key] is the query
    [db.query(User).filter(User.api_key == api_key).first()], the
    [api_key] column being kept outside [Db]. The result is the report the
    script prints, or [None] when it ends in [sys.exit(1)]; a [sys.exit]
    raises [SystemExit], which [except Exception] does not catch. *)
Definition reset_user (settings : Settings)
    (user_by_api_key : string → option nat) (api_key : string)
  : Handler (option ResetReport) :=
  match user_by_api_key api_key with
  | None => mret None
  | Some user =>
      try_except
        (d ← query;
         let trades_deleted :=
           length (filter (λ t, t_user_id t = user) (trades d)) in
         update (λ d, set_trades
                        (filter (λ t, t_user_id t ≠ user) (trades d)) d);;
         d ← query;
         let holdings_deleted :=
           size (filter (λ row : nat * string * Holding, row.1.1 = user)
                   (holdings d)) in
         update (λ d, set_holdings
                        (filter (λ row : nat * string * Holding,
                                   row.1.1 ≠ user) (holdings d)) d);;
         update (set_balance user (DEFAULT_BALANCE settings));;
         db_commit;;
         d ← query;
         mret (Some {| rr_user_id := user;
                       rr_trades_deleted := trades_deleted;
                       rr_holdings_deleted := holdings_deleted;
                       rr_balance := balance_of d user |}))
        (λ _, db_rollback;; mret None)
  end.

(** ** Account creation: [register_user] and [scripts/create_user.py] *)

Record UserCreateResponse := {
  ucr_user_id : nat;
  ucr_api_key : string;
  ucr_balance : Q;
  ucr_message : string
}.

(** The loop
    [api_key = token(); while <api_key in use>: api_key = token()]:
    [tokens n] is the [n]-th draw of [secrets.token_urlsafe(32)] and
    [taken] the query on the [api_key] column, which is kept outside
    [Db]. [None] is a loop still running when the fuel is spent. *)
Fixpoint unique_api_key (fuel : nat) (tokens : nat → string)
    (taken : string → bool) (n : nat) : option string :=
  match fuel with
  | O => None
  | S fuel' =>
      if taken (tokens n) then unique_api_key fuel' tokens taken (S n)
      else Some (tokens n)
  end.

(** The id an insert into [users] assigns: one that is not in use. *)
Definition new_user_id (d : Db) : nat := fresh (dom (users d)).

(** [db.add(user)] for [User(api_key=api_key, balance=balance)]. *)
Definition add_user (balance : Q) (d : Db) : Db :=
  set_balance (new_user_id d) balance d.

(** [register_user]; [user_data] is the optional request body and its
    optional [balance]. The constant prefix of the 500 detail is left
    out. *)
Definition register_user (settings : Settings) (fuel : nat)
    (tokens : nat → string) (taken : string → bool)
    (user_data : option (option Q)) (env : Env) (w : World)
  : option (Outcome UserCreateResponse * World) :=
  api_key ← unique_api_key fuel tokens taken 0;
  Some
    (try_except
       (let balance :=
          match user_data with
          | Some (Some balance) =>
              if Qeq_bool balance 0 then DEFAULT_BALANCE settings
              else balance
          | _ => DEFAULT_BALANCE settings
          end in
        d ← query;
        let user_id := new_user_id d in
        update (add_user balance);;
        db_commit;;
        d ← query;
        mret {| ucr_user_id := user_id; ucr_api_key := api_key;
                ucr_balance := balance_of d user_id;
                ucr_message :=
                  "Account created successfully! Click the 'Authorize' button at the top of this page and paste your API key to start trading." |})
       (λ e, db_rollback;; raise (HTTPException 500 (Str e)))
       env w).

(** [create_user(balance)] of the script: the pair it returns, or [None]
    when it ends in [sys.exit(1)]. *)
Definition create_user (settings : Settings) (fuel : nat)
    (tokens : nat → string) (taken : string → bool) (balance : option Q)
    (env : Env) (w : World) : option (Outcome (option (string * Q)) * World) :=
  let balance :=
    match balance with
    | None => DEFAULT_BALANCE settings
    | Some balance => balance
    end in
  api_key ← unique_api_key fuel tokens taken 0;
  Some
    (try_except
       (update (add_user balance);;
        db_commit;;
        mret (Some (api_key, balance)))
       (λ _, db_rollback;; mret None)
       env w).

(** * Vocabulary of the further statements *)

(** The ledger holds no empty or negative position. *)
Definition positive_holdings (d : Db) : Prop :=
  map_Forall (λ _ h, (0 < h_quantity h)%Q) (holdings d).

(** What a trade moved on the cash balance, read off its record. *)
Definition cash_flow (t : Trade) : Q :=
  match t_side t with
  | BUY => (- t_total_cost t)%Q
  | SELL => (t_quantity t * t_price t - t_transaction_fee t)%Q
  end.

Definition Qsum (xs : list Q) : Q := foldr Qplus 0%Q xs.

(** A client session: the requests of one user, each in its own request
    environment, one after the other. *)
Definition run_trades (settings : Settings) (current_user : nat)
    (steps : list (TradeRequest * Env)) (w : World) : World :=
  foldl (λ w step,
           (post_trade settings step.1 current_user step.2 w).2)
    w steps.


(** The canonical resolution keys. *)
Definition canonical_resolutions : list string :=
  ["1"; "5"; "15"; "30"; "60"; "120"; "240"; "D"; "W"; "M"].


(** The row the caching loop of [get_history] inserts for a candle. *)
Definition stored_row (symbol resolution : string) (market : MarketType)
    (candle : Candle) : HistoricalData :=
  {| hd_symbol := symbol; hd_market := market; hd_resolution := resolution;
     hd_timestamp := c_timestamp candle;
     hd_open := c_open candle; hd_high := c_high candle;
     hd_low := c_low candle; hd_close := c_close candle;
     hd_volume := c_volume candle; hd_source := "alpha_vantage" |}.

(** * Order instances and tactics *)

Global Instance timestamp_desc_total : Total timestamp_desc.
Proof. intros a b. unfold timestamp_desc. lia. Qed.

Global Instance key_desc_total : Total key_desc.
Proof.
  intros a b. unfold key_desc. destruct (String.leb_total b.1 a.1); auto.
Qed.

Global Instance timestamp_desc_trans : Transitive timestamp_desc.
Proof. intros a b c. unfold timestamp_desc. lia. Qed.

(** Unfold the monad of the handlers. *)
Ltac run :=
  cbv [mbind mret Handler_bind Handler_ret raise try_except ask query update
       db_commit db_rollback client_get truediv] in *.

(** Close a goal on the state a commit leaves. *)
Ltac committed_state :=
  unfold world, begin, set_balance, add_trade, set_holdings, balance_of; cbn;
  rewrite ?lookup_insert_eq; reflexivity.

(** * Lemmas on the monad and the provider *)


Lemma upper_idempotent s : upper (upper s) = upper s.
Proof.
  induction s as [|c s IH]; simpl; [done|]. f_equal; [|done].
  by destruct c as [[] [] [] [] [] [] [] []]; vm_compute.
Qed.

Lemma detect_market_upper s :
  MarketDataService.detect_market (upper s) = MarketDataService.detect_market s.
Proof. unfold MarketDataService.detect_market. by rewrite upper_idempotent. Qed.

(** [MarketDataService.get_price] sends exactly [price_request symbol], and
    either returns the quoted price or raises an exception that is not an
    [HTTPException]; it never touches the session. *)
Lemma MarketDataService_get_price_run symbol env w :
  let w' := {| db := db w;
               provider_calls := provider_calls w ++ [price_request symbol] |} in
  (∃ p, alpha_vantage env (price_request symbol) = Quote p
        ∧ MarketDataService.get_price symbol env w =
            (Return {| MarketDataService.pd_symbol := symbol;
                       MarketDataService.pd_market :=
                         MarketDataService.detect_market symbol;
                       MarketDataService.pd_price := p;
                       MarketDataService.pd_source := "alpha_vantage";
                       MarketDataService.pd_timestamp := now env |}, w'))
  ∨ (∃ e, is_HTTPException e = false
          ∧ (∀ p, alpha_vantage env (price_request symbol) ≠ Quote p)
          ∧ MarketDataService.get_price symbol env w = (Raise e, w')).
Proof.
  intros w'. subst w'.
  unfold MarketDataService.get_price, price_request,
    MarketDataService._get_stock_price, MarketDataService._get_crypto_price,
    MarketDataService._get_forex_price.
  destruct (MarketDataService.detect_market symbol); run;
    match goal with
    | |- context [alpha_vantage env ?r] => destruct (alpha_vantage env r) eqn:E
    end;
    first [ left; eexists; split; [reflexivity|reflexivity]
          | right; eexists; split; [|split; [|reflexivity]]; [done|congruence] ].
Qed.

(** * The trade handler *)

(** What a successful [execute_trade] did: the provider quoted [p], the
    quantity check and the commit passed, and the committed database is the
    old one with the balance, the ledger row and the trade log updated. *)
Lemma execute_trade_Return settings trade_request current_user env d calls
    r w' :
  execute_trade settings trade_request current_user env (world d calls)
    = (Return r, w') →
  let symbol := upper (tr_symbol trade_request) in
  let quantity := tr_quantity trade_request in
  let market := MarketDataService.detect_market symbol in
  let fee := transaction_fee settings market in
  let key := (current_user, symbol) in
  let balance := balance_of d current_user in
  ∃ p balance' hs',
    alpha_vantage env (price_request symbol) = Quote p
    ∧ quantity_ok market quantity = true
    ∧ commit_ok env = true
    ∧ match tr_side trade_request with
      | BUY =>
          Qltb balance (quantity * p + fee) = false
          ∧ balance' = (balance - (quantity * p + fee))%Q
          ∧ (∀ h, holdings d !! key = Some h →
               Qeq_bool (h_quantity h + quantity) 0 = false)
          ∧ hs' = <[key := holding_after_buy market quantity p
                             (holdings d !! key)]> (holdings d)
      | SELL =>
          ∃ h, holdings d !! key = Some h
               ∧ Qltb (h_quantity h) quantity = false
               ∧ balance' = (balance + (quantity * p - fee))%Q
               ∧ hs' = holdings_after_sell key quantity h (holdings d)
      end
    ∧ w' = world
             {| users := <[current_user := balance']> (users d);
                holdings := hs';
                trades := trades d ++
                  [{| t_id := S (length (trades d));
                      t_user_id := current_user; t_symbol := symbol;
                      t_market := market; t_side := tr_side trade_request;
                      t_quantity := quantity; t_price := p;
                      t_transaction_fee := fee;
                      t_total_cost := (quantity * p + fee)%Q;
                      t_executed_at := now env |}];
                price_cache := price_cache d;
                historical_data := historical_data d |}
             (calls ++ [price_request symbol])
    ∧ r = {| status := "success"; trade_symbol := symbol;
             trade_side := TradeSide_value (tr_side trade_request);
             trade_quantity := quantity; trade_price := p;
             trade_executed_by_uid := current_user;
             result_trade_id := S (length (trades d));
             result_executed_at := now env;
             result_total_cost := (quantity * p + fee)%Q;
             result_transaction_fee := fee;
             result_new_balance := balance' |}.
Proof.
  intros Hrun. cbv zeta. revert Hrun.
  unfold execute_trade. run.
  destruct (MarketDataService_get_price_run
              (upper (tr_symbol trade_request)) env (world d calls))
    as [(p & Hq & ->)|(e & He & _ & ->)]; [|by destruct e].
  cbn. unfold quantity_ok.
  destruct (bool_decide _ && negb _); [done|].
  unfold apply_side. destruct (tr_side trade_request); run; cbn.
  - destruct (Qltb _ _) eqn:Hlt; [done|]. cbn.
    destruct (holdings d !! _) as [h|] eqn:Hh; cbn.
    + destruct (Qeq_bool _ _) eqn:Hz; [done|]. cbn.
      destruct (commit_ok env); [|done]. cbn.
      intros [= <- <-]. eexists p, _, _.
      split_and!; try done; try (by intros ? [= <-]); committed_state.
    + destruct (commit_ok env); [|done]. cbn.
      intros [= <- <-]. eexists p, _, _.
      split_and!; try done; committed_state.
  - destruct (holdings d !! _) as [h|] eqn:Hh; [|done]. cbn.
    destruct (Qltb _ _) eqn:Hlt; [done|]. cbn.
    destruct (Qeq_bool _ _) eqn:Hz; cbn;
      (destruct (commit_ok env); [|done]); cbn;
      intros [= <- <-]; eexists p, _, _;
      (split; [done|split; [done|split; [done|split; [eauto 10|]]]]);
      split; unfold holdings_after_sell; rewrite ?Hz; committed_state.
Qed.

(** C1. Every [ExecuteTrade] call that fails, whatever the reason
    (rejected request body, provider failure, non-integer stock quantity,
    insufficient balance or holdings, division by zero, failed commit),
    leaves the session exactly on the database it started from; every call
    that succeeds leaves a committed database in which the balance, the
    ledger row (inserted, updated or deleted) and the appended trade are
    all present at once. *)
Theorem execute_trade_all_or_nothing settings trade_request current_user env
    d calls :
  let key := (current_user, upper (tr_symbol trade_request)) in
  match post_trade settings trade_request current_user env (world d calls) with
  | (Raise _, w') => db w' = begin d
  | (Return r, w') =>
      ∃ hs' t,
        db w' = begin
                  {| users := <[current_user := result_new_balance r]> (users d);
                     holdings := hs';
                     trades := trades d ++ [t];
                     price_cache := price_cache d;
                     historical_data := historical_data d |}
        ∧ ((∃ h', hs' = <[key := h']> (holdings d))
           ∨ (is_Some (holdings d !! key) ∧ hs' = delete key (holdings d)))
        ∧ t_id t = result_trade_id r
        ∧ t_user_id t = current_user
        ∧ t_symbol t = upper (tr_symbol trade_request)
        ∧ t_side t = tr_side trade_request
        ∧ t_quantity t = tr_quantity trade_request
  end.
Proof.
  intros key. unfold post_trade.
  destruct (TradeRequest_valid trade_request); [|by run].
  unfold execute_trade. run.
  destruct (MarketDataService_get_price_run
              (upper (tr_symbol trade_request)) env (world d calls))
    as [(p & Hq & ->)|(e & He & _ & ->)]; [|by destruct e].
  cbn.
  destruct (bool_decide _ && negb _); [done|].
  unfold apply_side. destruct (tr_side trade_request); run; cbn.
  - destruct (Qltb _ _); [done|]. cbn.
    destruct (holdings d !! _) as [h|] eqn:Hh; cbn.
    + destruct (Qeq_bool _ _); [done|]. cbn.
      destruct (commit_ok env); [|done]. cbn.
      eexists _, _. split; [committed_state|split; [left; eauto|done]].
    + destruct (commit_ok env); [|done]. cbn.
      eexists _, _. split; [committed_state|split; [left; eauto|done]].
  - destruct (holdings d !! _) as [h|] eqn:Hh; [|done]. cbn.
    destruct (Qltb _ _); [done|]. cbn.
    destruct (Qeq_bool _ _); cbn; (destruct (commit_ok env); [|done]); cbn.
    + eexists _, _. split; [committed_state|split; [right; eauto|done]].
    + eexists _, _. split; [committed_state|split; [left; eauto|done]].
Qed.

(** A failed [execute_trade] surfaces as a 400, after one provider call,
    on the database it started from. *)
Lemma execute_trade_Raise settings trade_request current_user env d calls
    e w' :
  execute_trade settings trade_request current_user env (world d calls)
    = (Raise e, w') →
  w' = world d (calls ++ [price_request (upper (tr_symbol trade_request))])
  ∧ ∃ detail, e = HTTPException 400 detail.
Proof.
  unfold execute_trade. run.
  destruct (MarketDataService_get_price_run
              (upper (tr_symbol trade_request)) env (world d calls))
    as [(p & Hq & ->)|(e' & He & _ & ->)];
    [|destruct e'; try done; intros [= <- <-]; eauto].
  cbn.
  destruct (bool_decide _ && negb _); [intros [= <- <-]; eauto|].
  unfold apply_side. destruct (tr_side trade_request); run; cbn.
  - destruct (Qltb _ _); [intros [= <- <-]; eauto|]. cbn.
    destruct (holdings d !! _) as [h|]; cbn.
    + destruct (Qeq_bool _ _); [intros [= <- <-]; eauto|]. cbn.
      destruct (commit_ok env); [done|intros [= <- <-]; eauto].
    + destruct (commit_ok env); [done|intros [= <- <-]; eauto].
  - destruct (holdings d !! _) as [h|]; [|intros [= <- <-]; eauto]. cbn.
    destruct (Qltb _ _); [intros [= <- <-]; eauto|]. cbn.
    destruct (Qeq_bool _ _); cbn;
      (destruct (commit_ok env); [done|intros [= <- <-]; eauto]).
Qed.

(** C2, as the code has it. Whatever the side, the appended trade and the
    returned result carry [total_cost = quantity * price + fee]; a SELL
    credits the balance with [quantity * price - fee], a BUY debits it
    with [quantity * price + fee], and [new_balance] is the balance after
    that. *)
Theorem trade_records_cost_plus_fee settings trade_request current_user env
    d calls r w' :
  execute_trade settings trade_request current_user env (world d calls)
    = (Return r, w') →
  ∃ t,
    trades (committed (db w')) = trades d ++ [t]
    ∧ t_side t = tr_side trade_request
    ∧ t_quantity t = tr_quantity trade_request
    ∧ t_price t = trade_price r
    ∧ t_transaction_fee t = transaction_fee settings (t_market t)
    ∧ t_total_cost t = (t_quantity t * t_price t + t_transaction_fee t)%Q
    ∧ result_total_cost r = t_total_cost t
    ∧ result_transaction_fee r = t_transaction_fee t
    ∧ balance_of (committed (db w')) current_user = result_new_balance r
    ∧ result_new_balance r =
        match tr_side trade_request with
        | BUY => (balance_of d current_user
                  - (t_quantity t * t_price t + t_transaction_fee t))%Q
        | SELL => (balance_of d current_user
                   + (t_quantity t * t_price t - t_transaction_fee t))%Q
        end.
Proof.
  intros Hrun.
  destruct (execute_trade_Return _ _ _ _ _ _ _ _ Hrun)
    as (p & b' & hs' & _ & _ & _ & Hside & -> & ->).
  eexists. split; [reflexivity|]. cbn.
  split_and!; try done.
  - unfold balance_of. cbn. by rewrite lookup_insert_eq.
  - destruct (tr_side trade_request).
    + by destruct Hside as (_ & -> & _).
    + by destruct Hside as (h & _ & _ & -> & _).
Qed.

Lemma trade_records_cost_plus_fee_witness :
  ∃ r w',
    execute_trade fee_settings (order "AAPL" SELL 1) 1 (quoting 100 0)
      (world ledger_db []) = (Return r, w')
    ∧ ∃ t, trades (committed (db w')) = trades ledger_db ++ [t]
           ∧ t_side t = SELL
           ∧ t_total_cost t = (t_quantity t * t_price t + t_transaction_fee t)%Q
           ∧ result_total_cost r = t_total_cost t.
Proof.
  eexists _, _. split; [vm_compute; reflexivity|].
  destruct (trade_records_cost_plus_fee fee_settings (order "AAPL" SELL 1) 1
              (quoting 100 0) ledger_db [] _ _ eq_refl)
    as (t & H1 & H2 & _ & _ & _ & H3 & H4 & _).
  exists t. auto.
Defined.

(** C2, as stated, fails: with a stock fee of 10, selling one share at 100
    records a total cost of 110, not the proceeds 90. *)
Lemma sell_records_cost_not_proceeds :
  ∃ r w' t,
    execute_trade fee_settings (order "AAPL" SELL 1) 1 (quoting 100 0)
      (world ledger_db []) = (Return r, w')
    ∧ trades (committed (db w')) = [t]
    ∧ (t_total_cost t == 110)%Q
    ∧ (result_total_cost r == 110)%Q
    ∧ ¬ (t_total_cost t == 1 * 100 - 10)%Q
    ∧ ¬ (result_total_cost r == 1 * 100 - 10)%Q.
Proof.
  eexists _, _, _. split; [vm_compute; reflexivity|].
  split; [reflexivity|]. by vm_compute.
Qed.



Lemma Qltb_lt a b : Qltb a b = true ↔ (a < b)%Q.
Proof.
  unfold Qltb. rewrite negb_true_iff, <- not_true_iff_false, Qle_bool_iff.
  split; [apply Qnot_le_lt|apply Qlt_not_le].
Qed.



(** C5. A BUY that finds no ledger row for the symbol creates one with the
    bought quantity and the execution price as average; a BUY that finds a
    row replaces it by [newQty = oldQty + q] and
    [newAvg = (oldQty * oldAvg + q * p) / newQty], with [newQty] not zero;
    so two BUYs on a fresh symbol end on the average
    [(q1 * p1 + q2 * p2) / (q1 + q2)]. *)
Theorem buy_weighted_average settings symbol q1 q2 current_user env1 env2
    d calls r1 w1 r2 w2 :
  let key := (current_user, upper symbol) in
  let p1 := trade_price r1 in
  let p2 := trade_price r2 in
  execute_trade settings
    {| tr_symbol := symbol; tr_side := BUY; tr_quantity := q1 |}
    current_user env1 (world d calls) = (Return r1, w1) →
  execute_trade settings
    {| tr_symbol := symbol; tr_side := BUY; tr_quantity := q2 |}
    current_user env2 w1 = (Return r2, w2) →
  ∃ h1 h2,
    holdings (committed (db w1)) !! key = Some h1
    ∧ holdings (committed (db w2)) !! key = Some h2
    ∧ match holdings d !! key with
      | None => h_quantity h1 = q1 ∧ h_average_price h1 = p1
      | Some h0 =>
          h_quantity h1 = (h_quantity h0 + q1)%Q
          ∧ h_average_price h1 =
              ((h_quantity h0 * h_average_price h0 + q1 * p1)
               / (h_quantity h0 + q1))%Q
          ∧ ¬ (h_quantity h0 + q1 == 0)%Q
      end
    ∧ h_quantity h2 = (h_quantity h1 + q2)%Q
    ∧ h_average_price h2 =
        ((h_quantity h1 * h_average_price h1 + q2 * p2)
         / (h_quantity h1 + q2))%Q
    ∧ ¬ (h_quantity h1 + q2 == 0)%Q
    ∧ (holdings d !! key = None →
       h_quantity h2 = (q1 + q2)%Q
       ∧ h_average_price h2 = ((q1 * p1 + q2 * p2) / (q1 + q2))%Q).
Proof.
  cbv zeta. intros Hrun1 Hrun2.
  destruct (execute_trade_Return _ _ _ _ _ _ _ _ Hrun1)
    as (p1 & b1 & hs1 & _ & _ & _ & (_ & _ & Hz1 & ->) & -> & ->).
  destruct (execute_trade_Return _ _ _ _ _ _ _ _ Hrun2)
    as (p2 & b2 & hs2 & _ & _ & _ & (_ & _ & Hz2 & ->) & -> & ->).
  cbn in *. rewrite lookup_insert_eq in Hz2 |- *.
  eexists _, _. rewrite !lookup_insert_eq.
  split; [reflexivity|]. split; [reflexivity|].
  assert (∀ x, Qeq_bool x 0 = false → ¬ (x == 0)%Q) as Hnz.
  { intros x Hx Hx'. apply Qeq_bool_iff in Hx'. congruence. }
  split_and!; try done.
  - destruct (holdings d !! _) as [h0|] eqn:Hh; cbn; [|done].
    split_and!; try done. apply Hnz. eauto.
  - apply Hnz. eauto.
  - by intros ->.
Qed.

Lemma buy_weighted_average_witness :
  ∃ r1 w1 r2 w2,
    execute_trade default_settings (order "aapl" BUY 10) 1 (quoting 150 0)
      (world fresh_db []) = (Return r1, w1)
    ∧ execute_trade default_settings (order "aapl" BUY 5) 1 (quoting 160 1)
        w1 = (Return r2, w2)
    ∧ ∃ h2,
        holdings (committed (db w2)) !! (1%nat, "AAPL") = Some h2
        ∧ h_average_price h2 = ((10 * 150 + 5 * 160) / (10 + 5))%Q.
Proof.
  eexists _, _, _, _.
  split; [vm_compute; reflexivity|].
  split; [vm_compute; reflexivity|].
  edestruct (buy_weighted_average default_settings "aapl" 10 5 1
               (quoting 150 0) (quoting 160 1) fresh_db [])
    as (h1 & h2 & _ & H2 & _ & _ & _ & _ & Hfresh);
    [vm_compute; reflexivity|vm_compute; reflexivity|].
  exists h2. split; [exact H2|].
  refine (proj2 (Hfresh _)). vm_compute; reflexivity.
Defined.

(** C6, as the code has it. From a non-negative balance, every successful
    BUY leaves the balance non-negative, and so does every successful SELL
    whose fee is not above [quantity * price]. *)
Theorem balance_stays_nonnegative settings trade_request current_user env
    d calls r w' :
  execute_trade settings trade_request current_user env (world d calls)
    = (Return r, w') →
  (0 <= balance_of d current_user)%Q →
  (tr_side trade_request = SELL →
   (result_transaction_fee r
    <= tr_quantity trade_request * trade_price r)%Q) →
  (0 <= balance_of (committed (db w')) current_user)%Q
  ∧ balance_of (committed (db w')) current_user = result_new_balance r.
Proof.
  intros Hrun Hbal Hfee.
  destruct (execute_trade_Return _ _ _ _ _ _ _ _ Hrun)
    as (p & b' & hs' & _ & _ & _ & Hside & -> & ->).
  cbn in *. unfold balance_of in *. cbn. rewrite lookup_insert_eq. cbn.
  split; [|done].
  destruct (tr_side trade_request).
  - destruct Hside as (Hlt & -> & _).
    assert (¬ (default 0 (users d !! current_user)
               < tr_quantity trade_request * p
                 + transaction_fee settings
                     (MarketDataService.detect_market
                        (upper (tr_symbol trade_request))))%Q) as Hge.
    { rewrite <- Qltb_lt. by rewrite Hlt. }
    apply Qnot_lt_le in Hge. lra.
  - destruct Hside as (h & _ & _ & -> & _). specialize (Hfee eq_refl). lra.
Qed.

(** With the default fees, all zero, a validated request and a
    non-negative quote keep the balance non-negative on both sides. *)
Lemma default_fees_keep_balance_nonnegative trade_request current_user env
    d calls r w' :
  post_trade default_settings trade_request current_user env (world d calls)
    = (Return r, w') →
  (0 <= balance_of d current_user)%Q →
  (0 <= trade_price r)%Q →
  (0 <= balance_of (committed (db w')) current_user)%Q.
Proof.
  unfold post_trade, TradeRequest_valid.
  destruct (Qltb 0 (tr_quantity trade_request)) eqn:Hq; [|done].
  apply Qltb_lt in Hq. intros Hrun Hbal Hp.
  destruct (execute_trade_Return _ _ _ _ _ _ _ _ Hrun)
    as (p & b' & hs' & _ & _ & _ & Hside & -> & ->).
  cbn in *. unfold balance_of in *. cbn. rewrite lookup_insert_eq. cbn.
  assert (transaction_fee default_settings
            (MarketDataService.detect_market
               (upper (tr_symbol trade_request))) = 0%Q) as Hfee
    by by destruct (MarketDataService.detect_market _).
  rewrite Hfee in Hside.
  destruct (tr_side trade_request).
  - destruct Hside as (Hlt & -> & _).
    assert (¬ (default 0 (users d !! current_user)
               < tr_quantity trade_request * p + 0)%Q) as Hge.
    { rewrite <- Qltb_lt. by rewrite Hlt. }
    apply Qnot_lt_le in Hge. lra.
  - destruct Hside as (h & _ & _ & -> & _).
    assert (0 <= tr_quantity trade_request * p)%Q
      by (apply Qmult_le_0_compat; [by apply Qlt_le_weak|done]).
    lra.
Qed.

Lemma balance_stays_nonnegative_witness :
  ∃ r w',
    execute_trade fee_settings (order "AAPL" SELL 1) 1 (quoting 100 0)
      (world ledger_db []) = (Return r, w')
    ∧ (0 <= balance_of (committed (db w')) 1)%Q.
Proof.
  eexists _, _. split; [vm_compute; reflexivity|].
  eapply (balance_stays_nonnegative fee_settings (order "AAPL" SELL 1) 1
            (quoting 100 0) ledger_db []).
  - vm_compute; reflexivity.
  - by vm_compute.
  - intros _. by vm_compute.
Defined.

(** C6, as stated, fails: with a stock fee of 10, selling one share at 5
    from a balance of 0 succeeds and leaves the balance at -5. *)
Lemma sell_fee_overdraws_balance :
  ∃ r w',
    execute_trade fee_settings (order "AAPL" SELL 1) 1 (quoting 5 0)
      (world ledger_db []) = (Return r, w')
    ∧ (0 <= balance_of ledger_db 1)%Q
    ∧ (balance_of (committed (db w')) 1 == -5)%Q
    ∧ ¬ (0 <= balance_of (committed (db w')) 1)%Q.
Proof.
  eexists _, _. split; [vm_compute; reflexivity|].
  split; [by vm_compute|]. split; [by vm_compute|].
  vm_compute. intros H. by apply H.
Qed.

(** * The price cache *)










(** * The candle store *)

Section sorted_facts.
Context {A : Type} (R : relation A).

Lemma Sorted_take n l : Sorted R l → Sorted R (take n l).
Proof.
  intros H. revert n.
  induction H as [|x l Hs IH Hhd]; intros [|n]; cbn; try constructor.
  - apply IH.
  - destruct Hhd; destruct n; cbn; by constructor.
Qed.

Lemma Sorted_lookup l i a b :
  Sorted R l → l !! i = Some a → l !! S i = Some b → R a b.
Proof.
  intros H. revert i.
  induction H as [|x l Hs IH Hhd]; intros i Ha Hb; [done|].
  destruct i as [|i]; cbn in *; [|eauto].
  injection Ha as ->. destruct Hhd; cbn in Hb; [done|].
  by injection Hb as ->.
Qed.

(** Neighbours of a sorted list without duplicate keys have different
    keys. *)
Lemma Sorted_distinct {K} (key : A → K) (P : A → Prop) l :
  Sorted R l → NoDup (key <$> l) → Forall P l →
  Sorted (λ a b, R a b ∧ key a ≠ key b ∧ P a ∧ P b) l.
Proof.
  induction 1 as [|x l Hs IH Hhd]; intros Hnd HP; [constructor|].
  rewrite fmap_cons in Hnd. apply NoDup_cons in Hnd as [Hx Hnd].
  apply Forall_cons in HP as [Px HP].
  constructor; [by apply IH|].
  destruct Hhd as [|y l' Hxy]; constructor.
  apply Forall_cons in HP as [Py _]. split_and!; try done.
  intros E. apply Hx. rewrite E, fmap_cons. left.
Qed.
End sorted_facts.

Lemma leb_ne_ltb s1 s2 :
  String.leb s1 s2 = true → s1 ≠ s2 → String.ltb s1 s2 = true.
Proof.
  unfold String.leb, String.ltb. intros Hle Hne.
  destruct (String.compare s1 s2) eqn:E; try done.
  by apply String.compare_eq_iff in E.
Qed.

Lemma Sorted_chronological (history : list Candle) :
  Sorted (λ a b, (c_timestamp a < c_timestamp b)%Z) history →
  chronological history.
Proof. intros H i a b Ha Hb. exact (Sorted_lookup _ _ _ _ _ H Ha Hb). Qed.

Lemma NoDup_fmap_elem_inj {A B} (f : A → B) (l : list A) x y :
  NoDup (f <$> l) → x ∈ l → y ∈ l → f x = f y → x = y.
Proof.
  induction l as [|z l IH]; intros Hnd Hx Hy Hf; [by apply elem_of_nil in Hx|].
  rewrite fmap_cons in Hnd. apply NoDup_cons in Hnd as [Hz Hnd].
  apply elem_of_cons in Hx as [->|Hx]; apply elem_of_cons in Hy as [->|Hy];
    try done.
  - destruct Hz. rewrite Hf. by apply list_elem_of_fmap_2.
  - destruct Hz. rewrite <- Hf. by apply list_elem_of_fmap_2.
  - by apply IH.
Qed.

(** Under the unique index, the rows one cache query selects have
    pairwise distinct timestamps. *)
Lemma stored_candles_timestamps symbol resolution start_ts end_ts d :
  unique_candles d →
  NoDup (hd_timestamp
         <$> stored_candles symbol resolution start_ts end_ts d).
Proof.
  intros Hu.
  set (stored := stored_candles symbol resolution start_ts end_ts d).
  assert (NoDup (candle_key <$> stored)) as Hk.
  { apply (sublist_NoDup _ (candle_key <$> historical_data d)); [exact Hu|].
    apply fmap_sublist. unfold stored, stored_candles. apply sublist_filter. }
  apply NoDup_fmap_2_strong; [|by apply NoDup_fmap_1 in Hk].
  intros x y Hx Hy Ht.
  apply (NoDup_fmap_elem_inj candle_key stored); try done.
  unfold stored, stored_candles in Hx, Hy.
  apply list_elem_of_filter in Hx as [Hx _].
  apply list_elem_of_filter in Hy as [Hy _].
  unfold history_filter in Hx, Hy.
  repeat match goal with
         | H : Is_true (_ && _) |- _ => apply andb_prop_elim in H as [? ?]
         end.
  repeat match goal with
         | H : Is_true (bool_decide _) |- _ => apply bool_decide_unpack in H
         end.
  unfold candle_key. congruence.
Qed.

(** The cache path: rows under the unique index, newest first, capped
    and reversed, are in strictly increasing order. *)
Lemma cached_candles_chronological symbol resolution start_ts end_ts limit d :
  unique_candles d →
  chronological
    (candle_of_row
     <$> reverse (take limit
                    (merge_sort timestamp_desc
                       (stored_candles symbol resolution start_ts end_ts d)))).
Proof.
  intros Hu. apply Sorted_chronological.
  set (stored := stored_candles symbol resolution start_ts end_ts d).
  assert (NoDup (hd_timestamp <$> merge_sort timestamp_desc stored)) as Hnd.
  { rewrite merge_sort_Permutation. by apply stored_candles_timestamps. }
  pose proof (Sorted_distinct _ hd_timestamp (λ _, True) _
                (Sorted_merge_sort timestamp_desc stored) Hnd) as Hs.
  eapply Sorted_fmap; [|apply Sorted_reverse, Sorted_take, Hs].
  - intros a b (Hab & Hne & _). unfold timestamp_desc in Hab. cbn. lia.
  - by apply Forall_true.
Qed.

(** The fetch path: a well-formed time series, newest key first, capped,
    converted and reversed, is in strictly increasing order. *)
Lemma candles_of_chronological fromisoformat volume limit time_series :
  series_ok fromisoformat time_series →
  chronological (candles_of fromisoformat volume limit time_series).
Proof.
  intros [Hnd Hmono]. apply Sorted_chronological. unfold candles_of.
  set (sorted := merge_sort key_desc time_series).
  assert (NoDup (fst <$> sorted)) as Hnd'.
  { unfold sorted. by rewrite merge_sort_Permutation. }
  assert (Forall (λ a, a.1 ∈ time_series.*1) sorted) as Hin.
  { apply Forall_forall. intros a Ha. apply list_elem_of_fmap_2.
    unfold sorted in Ha. by rewrite merge_sort_Permutation in Ha. }
  pose proof (Sorted_distinct _ fst _ _
                (Sorted_merge_sort key_desc time_series) Hnd' Hin) as Hs.
  apply Sorted_take with (n := limit) in Hs.
  eapply (Sorted_fmap _ _ (λ a b, (c_timestamp b < c_timestamp a)%Z)) in Hs.
  - apply Sorted_reverse in Hs. exact Hs.
  - intros a b (Hab & Hne & Ha & Hb). cbn. apply Hmono; try done.
    apply leb_ne_ltb; [exact Hab|congruence].
Qed.

(** A fetch that returns sent one query, got a time series back and
    converted it. *)
Lemma get_historical_data_Return fromisoformat symbol resolution limit market
    env w candles w' :
  get_historical_data fromisoformat symbol resolution limit market env w
    = (Return candles, w') →
  ∃ params time_series volume,
    alpha_vantage env params = Series time_series
    ∧ candles = candles_of fromisoformat volume limit time_series
    ∧ w' = {| db := db w; provider_calls := provider_calls w ++ [params] |}.
Proof.
  unfold get_historical_data, _get_stock_history, _get_crypto_history,
    _get_forex_history.
  destruct market; run;
    repeat match goal with
           | |- context [if ?b then _ else _] => destruct b
           end; try done;
    match goal with
    | |- context [alpha_vantage env ?r] =>
        destruct (alpha_vantage env r) eqn:E
    end; try done; intros [= <- <-]; eauto 10.
Qed.

(** One step of the caching loop never raises, calls no provider and
    commits nothing. *)
Lemma cache_candle_run symbol resolution market candle env w :
  ∃ w',
    cache_candle symbol resolution market candle env w = (Return (), w')
    ∧ provider_calls w' = provider_calls w
    ∧ committed (db w') = committed (db w).
Proof. unfold cache_candle. run. destruct (head _); eauto. Qed.

Lemma for_each_cache_candle symbol resolution market candles env w :
  ∃ w',
    for_each candles (cache_candle symbol resolution market) env w
      = (Return (), w')
    ∧ provider_calls w' = provider_calls w
    ∧ committed (db w') = committed (db w).
Proof.
  revert w. induction candles as [|c candles IH]; intros w; [by eexists|].
  cbn [for_each]. unfold mbind, Handler_bind.
  destruct (cache_candle_run symbol resolution market c env w)
    as (w1 & -> & Hc1 & Hd1).
  destruct (IH w1) as (w2 & -> & Hc2 & Hd2).
  exists w2. split_and!; congruence.
Qed.

(** What a successful [get_history] did. *)
Lemma get_history_Return fromisoformat symbol resolution limit start_ts end_ts
    current_user env d calls r w' :
  get_history fromisoformat symbol resolution limit start_ts end_ts
    current_user env (world d calls) = (Return r, w') →
  let stored := stored_candles symbol resolution start_ts end_ts d in
  ((limit ≤ length stored)%nat
   ∧ hr_history r =
       candle_of_row
       <$> reverse (take limit (merge_sort timestamp_desc stored))
   ∧ hr_source r = "cache"
   ∧ w' = world d calls)
  ∨ ((length stored < limit)%nat
     ∧ ∃ params time_series volume,
         alpha_vantage env params = Series time_series
         ∧ hr_history r = candles_of fromisoformat volume limit time_series
         ∧ hr_source r = "alpha_vantage"
         ∧ provider_calls w' = calls ++ [params]).
Proof.
  cbv zeta. unfold get_history. run. cbn.
  fold (stored_candles symbol resolution start_ts end_ts d).
  set (stored := stored_candles symbol resolution start_ts end_ts d).
  assert (length (take limit (merge_sort timestamp_desc stored))
          = (limit `min` length stored)%nat) as Hlen.
  { by rewrite length_take, merge_sort_Permutation. }
  destruct (Nat.leb _ _) eqn:Hle.
  - intros [= <- <-]. left. apply Nat.leb_le in Hle.
    split_and!; try done. lia.
  - apply Nat.leb_gt in Hle.
    destruct (get_historical_data _ _ _ _ _ _ _) as [[candles|e] w1] eqn:Hget;
      [|done].
    apply get_historical_data_Return in Hget
      as (params & ts & volume & Hts & -> & ->).
    destruct (for_each_cache_candle (upper symbol)
                (normalize_resolution resolution)
                (MarketDataService.detect_market (upper symbol))
                (candles_of fromisoformat volume limit ts) env
                {| db := db (world d calls);
                   provider_calls := provider_calls (world d calls) ++ [params] |})
      as (w2 & -> & Hcalls & _).
    destruct (commit_ok env); [|done]. cbn.
    intros [= <- <-]. right. split; [lia|]. cbn. eauto 10.
Qed.

(** C9, as the code has it. On a store that respects its unique index,
    and with a provider whose time series are well formed, every
    successful [GetHistory] lists its candles in strictly increasing
    timestamp order; when the rows selected meet [limit] the response is
    served from the store with source ["cache"] and no provider call, and
    otherwise it is the provider's batch with source ["alpha_vantage"]
    after one provider call. *)
Theorem get_history_chronological fromisoformat symbol resolution limit
    start_ts end_ts current_user env d calls r w' :
  unique_candles d →
  (∀ params time_series,
     alpha_vantage env params = Series time_series →
     series_ok fromisoformat time_series) →
  get_history fromisoformat symbol resolution limit start_ts end_ts
    current_user env (world d calls) = (Return r, w') →
  let stored := stored_candles symbol resolution start_ts end_ts d in
  chronological (hr_history r)
  ∧ ((limit ≤ length stored)%nat →
     hr_source r = "cache" ∧ w' = world d calls)
  ∧ ((length stored < limit)%nat →
     hr_source r = "alpha_vantage"
     ∧ ∃ params, provider_calls w' = calls ++ [params]).
Proof.
  intros Hu Hseries Hrun. cbv zeta.
  destruct (get_history_Return _ _ _ _ _ _ _ _ _ _ _ _ Hrun)
    as [(Hle & -> & Hsrc & ->)
       |(Hlt & params & ts & volume & Hts & -> & Hsrc & Hcalls)].
  - split; [by apply cached_candles_chronological|].
    split; [done|lia].
  - split; [eapply candles_of_chronological, Hseries, Hts|].
    split; [lia|eauto].
Qed.

Lemma daily_series_ok : series_ok daily_clock daily_series.
Proof.
  split.
  - apply (bool_decide_unpack _). by vm_compute.
  - intros k1 k2 H1 H2. cbn in H1, H2.
    repeat (apply elem_of_cons in H1 as [->|H1]);
      try (by apply elem_of_nil in H1);
      repeat (apply elem_of_cons in H2 as [->|H2]);
      try (by apply elem_of_nil in H2);
      vm_compute; congruence.
Qed.

Lemma get_history_chronological_witness :
  ∃ r w',
    get_history daily_clock "aapl" "1d" 2 None None 1 daily_env
      (world fresh_db []) = (Return r, w')
    ∧ chronological (hr_history r)
    ∧ c_timestamp <$> hr_history r = [1704153600; 1704240000]%Z.
Proof.
  eexists _, _. split; [vm_compute; reflexivity|].
  split; [|vm_compute; reflexivity].
  refine (proj1 (get_history_chronological daily_clock "aapl" "1d" 2 None
                   None 1 daily_env fresh_db [] _ _ _ _ _)).
  - apply NoDup_nil_2.
  - intros params ts [= <-]. exact daily_series_ok.
  - vm_compute; reflexivity.
Defined.

(** C9, as stated, fails: a history freshly fetched from the provider is
    tagged ["alpha_vantage"], not ["provider"]. *)
Lemma fetched_history_source_not_provider :
  ∃ r w',
    get_history daily_clock "AAPL" "1d" 2 None None 1 daily_env
      (world fresh_db []) = (Return r, w')
    ∧ provider_calls w' = [TIME_SERIES "TIME_SERIES_DAILY" "AAPL" ""]
    ∧ hr_source r = "alpha_vantage"
    ∧ hr_source r ≠ "provider".
Proof.
  eexists _, _. split; [vm_compute; reflexivity|].
  split; [reflexivity|]. split; [reflexivity|]. by cbn.
Qed.

(** The caching loop keeps the unique index: a candle is inserted only
    when no row has its key. *)
Lemma cache_candle_unique symbol resolution market candle env w w' :
  NoDup (candle_key <$> historical_data (pending (db w))) →
  cache_candle symbol resolution market candle env w = (Return (), w') →
  NoDup (candle_key <$> historical_data (pending (db w'))).
Proof.
  intros Hnd. unfold cache_candle. run.
  destruct (head _) eqn:Hhead; intros [= <-]; [done|]. cbn.
  rewrite fmap_app. apply NoDup_app. split; [done|].
  split; [|apply NoDup_singleton].
  intros k Hk Hnew. apply list_elem_of_fmap in Hk as (h & -> & Hh).
  apply list_elem_of_singleton in Hnew. apply head_None in Hhead.
  eapply (filter_nil_not_elem_of _ _ h Hhead); [|exact Hh].
  unfold candle_key in Hnew. cbn in Hnew. by injection Hnew as -> -> ->.
Qed.

Lemma for_each_cache_candle_unique symbol resolution market candles env w w' :
  NoDup (candle_key <$> historical_data (pending (db w))) →
  for_each candles (cache_candle symbol resolution market) env w
    = (Return (), w') →
  NoDup (candle_key <$> historical_data (pending (db w'))).
Proof.
  revert w. induction candles as [|c candles IH]; intros w Hnd.
  - by intros [= <-].
  - cbn [for_each]. unfold mbind, Handler_bind.
    destruct (cache_candle_run symbol resolution market c env w)
      as (w1 & Hstep & _). rewrite Hstep.
    apply IH. by eapply cache_candle_unique.
Qed.

(** [get_history] hands the unique index on: whatever the outcome, the
    committed store still has one row per key. *)
Lemma get_history_keeps_unique fromisoformat symbol resolution limit start_ts
    end_ts current_user env d calls o w' :
  unique_candles d →
  get_history fromisoformat symbol resolution limit start_ts end_ts
    current_user env (world d calls) = (o, w') →
  unique_candles (committed (db w')).
Proof.
  intros Hu. unfold get_history. run. cbn.
  destruct (Nat.leb _ _); [by intros [= <- <-]|].
  destruct (get_historical_data _ _ _ _ _ _ _) as [[candles|e] w1] eqn:Hget.
  - apply get_historical_data_Return in Hget
      as (params & ts & volume & _ & -> & ->).
    destruct (for_each _ _ _ _) as [[[]|e] w2] eqn:Hloop.
    + apply for_each_cache_candle_unique in Hloop as Hnd; [|exact Hu].
      destruct (for_each_cache_candle (upper symbol)
                  (normalize_resolution resolution)
                  (MarketDataService.detect_market (upper symbol))
                  (candles_of fromisoformat volume limit ts) env
                  {| db := db (world d calls);
                     provider_calls :=
                       provider_calls (world d calls) ++ [params] |})
        as (w2' & Hloop' & _ & Hc).
      rewrite Hloop in Hloop'. injection Hloop' as <-.
      destruct (commit_ok env); intros [= <- <-]; cbn; [done|].
      by rewrite Hc.
    + destruct (for_each_cache_candle (upper symbol)
                  (normalize_resolution resolution)
                  (MarketDataService.detect_market (upper symbol))
                  (candles_of fromisoformat volume limit ts) env
                  {| db := db (world d calls);
                     provider_calls :=
                       provider_calls (world d calls) ++ [params] |})
        as (w2' & Hloop' & _). congruence.
  - intros [= <- <-].
    assert (committed (db w1) = d) as ->; [|done].
    revert Hget.
    unfold get_historical_data, _get_stock_history, _get_crypto_history,
      _get_forex_history.
    destruct (MarketDataService.detect_market _); run;
      repeat match goal with
             | |- context [if ?b then _ else _] => destruct b
             end; try (by intros [= <- <-]);
      match goal with
      | |- context [alpha_vantage env ?r] => destruct (alpha_vantage env r)
      end; by intros [= <- <-].
Qed.

(** * Symbol normalisation *)



(** * More on the trade handler *)

(** Every [post_trade] leaves a session freshly opened on some database;
    when it raises, on the one it started from. *)
Lemma post_trade_world settings trade_request current_user env d calls :
  ∃ d' calls',
    (post_trade settings trade_request current_user env (world d calls)).2
    = world d' calls'
    ∧ ∀ e, (post_trade settings trade_request current_user env
              (world d calls)).1 = Raise e → d' = d.
Proof.
  unfold post_trade. destruct (TradeRequest_valid trade_request).
  - destruct (execute_trade _ _ _ _ _) as [[r|e] w'] eqn:Hrun.
    + destruct (execute_trade_Return _ _ _ _ _ _ _ _ Hrun)
        as (p & b' & hs' & _ & _ & _ & _ & -> & _).
      eexists _, _. by split.
    + destruct (execute_trade_Raise _ _ _ _ _ _ _ _ Hrun) as [-> _].
      eexists _, _. by split.
  - exists d, calls. by split.
Qed.

Lemma Qeq_bool_false_neq x y : Qeq_bool x y = false → ¬ (x == y)%Q.
Proof. intros H E. apply Qeq_bool_iff in E. congruence. Qed.

Lemma Qltb_ge a b : Qltb a b = false → (b <= a)%Q.
Proof.
  intros H. apply Qnot_lt_le. rewrite <- Qltb_lt. by rewrite H.
Qed.

(** X1. [post_trade] keeps the ledger free of empty positions: if every
    row holds a positive quantity before the call, every row does after
    it, whatever the outcome. *)
Theorem post_trade_keeps_holdings_positive settings trade_request current_user
    env d calls :
  positive_holdings d →
  positive_holdings
    (committed
       (db (post_trade settings trade_request current_user env
              (world d calls)).2)).
Proof.
  intros Hpos. unfold post_trade, TradeRequest_valid.
  destruct (Qltb 0 (tr_quantity trade_request)) eqn:Hq; [|done].
  apply Qltb_lt in Hq.
  destruct (execute_trade _ _ _ _ _) as [[r|e] w'] eqn:Hrun.
  - destruct (execute_trade_Return _ _ _ _ _ _ _ _ Hrun)
      as (p & b' & hs' & _ & _ & _ & Hside & -> & _).
    unfold positive_holdings in *. cbn.
    destruct (tr_side trade_request).
    + destruct Hside as (_ & _ & _ & ->).
      apply map_Forall_insert_2; [|done].
      destruct (holdings d !! _) as [h|] eqn:Hh; cbn; [|done].
      apply Hpos in Hh. cbn in Hh. lra.
    + destruct Hside as (h & Hh & Hlt & _ & ->).
      unfold holdings_after_sell.
      destruct (Qeq_bool _ _) eqn:Hz; [by apply map_Forall_delete|].
      apply map_Forall_insert_2; [|done]. cbn.
      apply Qltb_ge in Hlt. apply Qeq_bool_false_neq in Hz. lra.
  - by destruct (execute_trade_Raise _ _ _ _ _ _ _ _ Hrun) as [-> _].
Qed.

Lemma post_trade_keeps_holdings_positive_witness :
  positive_holdings
    (committed
       (db (post_trade default_settings (order "AAPL" SELL 1) 1
              (quoting 100 0) (world ledger_db [])).2)).
Proof.
  apply post_trade_keeps_holdings_positive.
  unfold positive_holdings, ledger_db. cbn.
  apply map_Forall_singleton. by vm_compute.
Defined.



(** X3. Buying a quantity of a symbol the account does not hold and then
    selling the same quantity removes the ledger row again, at whatever
    prices the two trades executed: the ledger is back to what it was, and
    the balance has moved by the two cash amounts. *)
Theorem buy_then_sell_restores_ledger settings symbol quantity current_user
    env1 env2 d calls r1 w1 r2 w2 :
  holdings d !! (current_user, upper symbol) = None →
  execute_trade settings
    {| tr_symbol := symbol; tr_side := BUY; tr_quantity := quantity |}
    current_user env1 (world d calls) = (Return r1, w1) →
  execute_trade settings
    {| tr_symbol := symbol; tr_side := SELL; tr_quantity := quantity |}
    current_user env2 w1 = (Return r2, w2) →
  holdings (committed (db w2)) = holdings d
  ∧ result_new_balance r2
    = (balance_of d current_user
       - (quantity * trade_price r1 + result_transaction_fee r1)
       + (quantity * trade_price r2 - result_transaction_fee r2))%Q.
Proof.
  intros Hnone Hrun1 Hrun2.
  destruct (execute_trade_Return _ _ _ _ _ _ _ _ Hrun1)
    as (p1 & b1 & hs1 & _ & _ & _ & (_ & -> & _ & ->) & -> & ->).
  destruct (execute_trade_Return _ _ _ _ _ _ _ _ Hrun2)
    as (p2 & b2 & hs2 & _ & _ & _ & (h & Hh & _ & -> & ->) & -> & ->).
  cbn in *. rewrite lookup_insert_eq in Hh. injection Hh as <-.
  rewrite Hnone. cbn. split.
  - unfold holdings_after_sell. cbn.
    assert (Qeq_bool (quantity - quantity) 0 = true) as ->.
    { apply Qeq_bool_iff. lra. }
    by apply delete_insert_id.
  - unfold balance_of. cbn. by rewrite lookup_insert_eq.
Qed.

Lemma buy_then_sell_restores_ledger_witness :
  ∃ r1 w1 r2 w2,
    execute_trade default_settings (order "aapl" BUY 10) 1 (quoting 150 0)
      (world fresh_db []) = (Return r1, w1)
    ∧ execute_trade default_settings (order "AAPL" SELL 10) 1
        (quoting 170 1) w1 = (Return r2, w2)
    ∧ holdings (committed (db w2)) = holdings fresh_db.
Proof.
  eexists _, _, _, _.
  split; [vm_compute; reflexivity|]. split; [vm_compute; reflexivity|].
  eapply (buy_then_sell_restores_ledger default_settings "AAPL" 10 1
            (quoting 150 0) (quoting 170 1) fresh_db []).
  - vm_compute; reflexivity.
  - vm_compute; reflexivity.
  - vm_compute; reflexivity.
Defined.

(** One [post_trade], seen from the trade log: nothing is appended and the
    database is unchanged, or one trade of the caller is appended, with the
    next id, and the balance has moved by its cash flow. *)
Lemma post_trade_step settings trade_request current_user env d calls :
  ∃ d' calls',
    (post_trade settings trade_request current_user env (world d calls)).2
    = world d' calls'
    ∧ (d' = d
       ∨ ∃ t, trades d' = trades d ++ [t]
              ∧ t_id t = S (length (trades d))
              ∧ t_user_id t = current_user
              ∧ (balance_of d' current_user
                 == balance_of d current_user + cash_flow t)%Q).
Proof.
  unfold post_trade. destruct (TradeRequest_valid trade_request);
    [|exists d, calls; by split; [|left]].
  destruct (execute_trade _ _ _ _ _) as [[r|e] w'] eqn:Hrun.
  - destruct (execute_trade_Return _ _ _ _ _ _ _ _ Hrun)
      as (p & b' & hs' & _ & _ & _ & Hside & -> & _).
    eexists _, _. split; [reflexivity|]. right. eexists.
    split; [reflexivity|]. cbn. split_and!; try done.
    unfold balance_of at 1. cbn. rewrite lookup_insert_eq. cbn.
    unfold cash_flow. cbn. destruct (tr_side trade_request).
    + destruct Hside as (_ & -> & _). ring.
    + destruct Hside as (h & _ & _ & -> & _). ring.
  - destruct (execute_trade_Raise _ _ _ _ _ _ _ _ Hrun) as [-> _].
    eexists _, _. split; [reflexivity|by left].
Qed.

Lemma Qsum_app xs ys : (Qsum (xs ++ ys) == Qsum xs + Qsum ys)%Q.
Proof.
  induction xs as [|x xs IH]; cbn [app]; unfold Qsum in *; cbn [foldr].
  - by rewrite Qplus_0_l.
  - rewrite IH. ring.
Qed.

(** X4. Over any sequence of trade requests of one user, successful or
    not, the trade log only grows, by trades of that user, and the cash
    balance at the end is the balance at the start plus the cash flows of
    the trades appended: minus [total_cost] for each BUY, plus
    [quantity * price - fee] for each SELL. *)
Theorem balance_follows_trade_log settings current_user steps d calls :
  ∃ d' calls' new,
    run_trades settings current_user steps (world d calls) = world d' calls'
    ∧ trades d' = trades d ++ new
    ∧ Forall (λ t, t_user_id t = current_user) new
    ∧ (balance_of d' current_user
       == balance_of d current_user + Qsum (cash_flow <$> new))%Q.
Proof.
  revert d calls. induction steps as [|[req env] steps IH]; intros d calls.
  - exists d, calls, []. cbn. rewrite app_nil_r.
    split_and!; try done. unfold Qsum. cbn. ring.
  - cbn [run_trades foldl]. cbn [fst snd].
    destruct (post_trade_step settings req current_user env d calls)
      as (d1 & calls1 & -> & Hstep).
    destruct (IH d1 calls1) as (d' & calls' & new & Hrun & Htr & Hall & Hbal).
    unfold run_trades in Hrun. rewrite Hrun.
    destruct Hstep as [->|(t & Ht & _ & Hu & Hb)].
    + by exists d', calls', new.
    + exists d', calls', (t :: new). split; [done|].
      split; [by rewrite Htr, Ht, <- app_assoc|].
      split; [by constructor|].
      rewrite Hbal, Hb. unfold Qsum. cbn. ring.
Qed.

(** X5. A trade request of one user leaves every other account alone,
    whatever its outcome: their balances and ledger rows, the price cache
    and the candle store are as before. *)
Theorem post_trade_isolates_accounts settings trade_request current_user
    other env d calls :
  other ≠ current_user →
  let d' :=
    committed
      (db (post_trade settings trade_request current_user env
             (world d calls)).2) in
  users d' !! other = users d !! other
  ∧ (∀ symbol, holdings d' !! (other, symbol) = holdings d !! (other, symbol))
  ∧ price_cache d' = price_cache d
  ∧ historical_data d' = historical_data d.
Proof.
  intros Hne. cbv zeta. unfold post_trade.
  destruct (TradeRequest_valid trade_request); [|done].
  destruct (execute_trade _ _ _ _ _) as [[r|e] w'] eqn:Hrun.
  - destruct (execute_trade_Return _ _ _ _ _ _ _ _ Hrun)
      as (p & b' & hs' & _ & _ & _ & Hside & -> & _).
    cbn. split; [by rewrite lookup_insert_ne|]. split; [|done].
    intros symbol.
    assert ((current_user, upper (tr_symbol trade_request))
            ≠ (other, symbol)) as Hk by congruence.
    destruct (tr_side trade_request).
    + destruct Hside as (_ & _ & _ & ->). by rewrite lookup_insert_ne.
    + destruct Hside as (h & _ & _ & _ & ->). unfold holdings_after_sell.
      destruct (Qeq_bool _ _);
        [by rewrite lookup_delete_ne|by rewrite lookup_insert_ne].
  - by destruct (execute_trade_Raise _ _ _ _ _ _ _ _ Hrun) as [-> _].
Qed.

Lemma post_trade_isolates_accounts_witness :
  users
    (committed
       (db (post_trade default_settings (order "AAPL" BUY 10) 1
              (quoting 150 0) (world fresh_db [])).2)) !! 2%nat
  = users fresh_db !! 2%nat.
Proof.
  refine (proj1 (post_trade_isolates_accounts default_settings
                   (order "AAPL" BUY 10) 1 2 (quoting 150 0) fresh_db [] _)).
  discriminate.
Defined.

(** X6. A stock order for a fractional quantity never executes, and the
    check comes after the price fetch: the call still costs one provider
    query, and is answered with the 400 of the quantity check when the
    provider quoted a price, with the 400 of the failed fetch
    otherwise. *)
Theorem stock_order_needs_whole_quantity settings trade_request current_user
    env d calls :
  let symbol := upper (tr_symbol trade_request) in
  MarketDataService.detect_market symbol = STOCK →
  ¬ (tr_quantity trade_request
     == inject_Z (int (tr_quantity trade_request)))%Q →
  ∃ detail,
    execute_trade settings trade_request current_user env (world d calls)
    = (Raise (HTTPException 400 detail),
       world d (calls ++ [GLOBAL_QUOTE symbol]))
    ∧ ((∃ p, alpha_vantage env (GLOBAL_QUOTE symbol) = Quote p) →
       detail = Text "Stock trades require integer quantities").
Proof.
  cbv zeta. intros Hm Hfrac.
  assert (price_request (upper (tr_symbol trade_request))
          = GLOBAL_QUOTE (upper (tr_symbol trade_request))) as Hrq.
  { unfold price_request. by rewrite Hm. }
  destruct (execute_trade settings trade_request current_user env
              (world d calls)) as [[r|e] w'] eqn:Hrun.
  - destruct (execute_trade_Return _ _ _ _ _ _ _ _ Hrun)
      as (p & b' & hs' & _ & Hok & _).
    unfold quantity_ok in Hok. rewrite Hm in Hok. cbn in Hok.
    apply negb_true_iff, negb_false_iff, Qeq_bool_iff in Hok. done.
  - destruct (execute_trade_Raise _ _ _ _ _ _ _ _ Hrun) as [-> [detail ->]].
    rewrite Hrq. exists detail. split; [done|]. intros [p Hp].
    revert Hrun. unfold execute_trade. run.
    destruct (MarketDataService_get_price_run
                (upper (tr_symbol trade_request)) env (world d calls))
      as [(p' & Hp' & ->)|(e & _ & He & _)];
      [|rewrite Hrq in He; by destruct (He p)].
    cbn. rewrite Hm. cbn.
    assert (Qeq_bool (tr_quantity trade_request)
              (inject_Z (int (tr_quantity trade_request))) = false) as ->.
    { apply not_true_iff_false. by rewrite Qeq_bool_iff. }
    cbn. by intros [= <-].
Qed.

Lemma stock_order_needs_whole_quantity_witness :
  ∃ detail,
    execute_trade default_settings (order "aapl" BUY (1 # 2)) 1
      (quoting 150 0) (world fresh_db [])
    = (Raise (HTTPException 400 detail),
       world fresh_db [GLOBAL_QUOTE "AAPL"]).
Proof.
  destruct (stock_order_needs_whole_quantity default_settings
              (order "aapl" BUY (1 # 2)) 1 (quoting 150 0) fresh_db [])
    as (detail & H & _).
  - vm_compute; reflexivity.
  - by vm_compute.
  - exists detail. exact H.
Defined.



(** * More on the price cache *)





(** * More on the market data service *)

Lemma upper_length s : String.length (upper s) = String.length s.
Proof. induction s as [|c s IH]; cbn; [done|]. by rewrite IH. Qed.

Lemma split_six s :
  String.length s = 6%nat →
  substring 0 3 s +:+ substring 3 3 s = s
  ∧ String.length (substring 0 3 s) = 3%nat
  ∧ String.length (substring 3 3 s) = 3%nat.
Proof.
  destruct s as [|c1 [|c2 [|c3 [|c4 [|c5 [|c6 [|c7 s]]]]]]]; try done.
Qed.

(** X10. For a symbol classified as forex, [get_price] asks the provider
    for the exchange rate between the first three and the last three
    characters of the symbol: the two codes have three characters each and
    put together give the symbol back. *)
Theorem forex_symbol_splits_in_two symbol env w :
  MarketDataService.detect_market symbol = FOREX →
  ∃ from_currency to_currency,
    provider_calls (MarketDataService.get_price symbol env w).2
    = provider_calls w
      ++ [CURRENCY_EXCHANGE_RATE from_currency to_currency]
    ∧ from_currency +:+ to_currency = symbol
    ∧ String.length from_currency = 3%nat
    ∧ String.length to_currency = 3%nat.
Proof.
  intros Hm.
  assert (String.length symbol = 6%nat) as Hlen.
  { revert Hm. unfold MarketDataService.detect_market.
    destruct (str_in _ _); [done|].
    destruct (Nat.eqb _ _) eqn:E; [|done].
    apply Nat.eqb_eq in E. by rewrite upper_length in E. }
  destruct (split_six symbol Hlen) as (Hcat & H1 & H2).
  exists (substring 0 3 symbol), (substring 3 3 symbol).
  split; [|done].
  destruct (MarketDataService_get_price_run symbol env w)
    as [(p & _ & ->)|(e & _ & _ & ->)]; cbn;
    unfold price_request; by rewrite Hm.
Qed.

Lemma forex_symbol_splits_in_two_witness :
  ∃ from_currency to_currency,
    provider_calls
      (MarketDataService.get_price "EURUSD" (quoting 1 0)
         (world fresh_db [])).2
    = [CURRENCY_EXCHANGE_RATE from_currency to_currency]
    ∧ from_currency +:+ to_currency = "EURUSD".
Proof.
  destruct (forex_symbol_splits_in_two "EURUSD" (quoting 1 0)
              (world fresh_db []))
    as (a & b & H1 & H2 & _); [vm_compute; reflexivity|].
  exists a, b. split; [exact H1|exact H2].
Defined.

(** * More on the candle store *)

Lemma RESOLUTION_MAP_values :
  map_Forall (λ _ v, RESOLUTION_MAP !! v = None ∧ v ∈ canonical_resolutions)
    RESOLUTION_MAP.
Proof. apply (bool_decide_unpack _). by vm_compute. Qed.

(** X11. Resolution normalisation is idempotent and lands in the
    canonical keys: an alias is mapped to a canonical key, no canonical key
    is itself an alias, and any other string is left as it is. *)
Theorem normalize_resolution_idempotent resolution :
  normalize_resolution (normalize_resolution resolution)
  = normalize_resolution resolution
  ∧ (is_Some (RESOLUTION_MAP !! resolution) →
     normalize_resolution resolution ∈ canonical_resolutions)
  ∧ (resolution ∈ canonical_resolutions →
     normalize_resolution resolution = resolution).
Proof.
  unfold normalize_resolution.
  destruct (RESOLUTION_MAP !! resolution) as [v|] eqn:E;
    cbn [default from_option id].
  - destruct (RESOLUTION_MAP_values _ _ E) as [Hv Hc]. rewrite Hv.
    cbn [default from_option id].
    split; [done|]. split; [done|].
    intros Hin. exfalso. revert E. unfold canonical_resolutions in Hin.
    repeat (apply elem_of_cons in Hin as [->|Hin]); try by vm_compute.
    by apply elem_of_nil in Hin.
  - rewrite E. cbn [default from_option id].
    split; [done|]. split; [by intros [? [=]]|done].
Qed.



(** The caching loop only appends to [historical_data] of the open
    transaction. *)
Lemma for_each_cache_candle_appends symbol resolution market candles env w w' :
  for_each candles (cache_candle symbol resolution market) env w
    = (Return (), w') →
  ∃ new,
    pending (db w')
    = {| users := users (pending (db w));
         holdings := holdings (pending (db w));
         trades := trades (pending (db w));
         price_cache := price_cache (pending (db w));
         historical_data := historical_data (pending (db w)) ++ new |}
    ∧ (length new ≤ length candles)%nat.
Proof.
  revert w. induction candles as [|c candles IH]; intros w.
  - intros [= <-]. exists []. rewrite app_nil_r. by destruct (pending (db w)).
  - cbn [for_each]. unfold mbind, Handler_bind.
    destruct (cache_candle symbol resolution market c env w)
      as [[[]|e] w1] eqn:Hstep;
      [|destruct (cache_candle_run symbol resolution market c env w)
          as (? & ? & _); congruence].
    intros Hloop. destruct (IH _ Hloop) as (new & -> & Hlen).
    revert Hstep. unfold cache_candle. run.
    destruct (head _); intros [= <-]; cbn.
    + exists new. split; [done|lia].
    + eexists (_ :: new). rewrite <- app_assoc. split; [done|cbn; lia].
Qed.

(** X13. The candle store is append-only under [GetHistory]: whatever
    the outcome, the rows that were stored are still there, unchanged and
    in place, at most [limit] rows follow them, the unique index still
    holds, and no other table is touched. *)
Theorem get_history_store_append_only fromisoformat symbol resolution limit
    start_ts end_ts current_user env d calls :
  unique_candles d →
  let d' :=
    committed
      (db (get_history fromisoformat symbol resolution limit start_ts end_ts
             current_user env (world d calls)).2) in
  unique_candles d'
  ∧ (∃ new, historical_data d' = historical_data d ++ new
            ∧ (length new ≤ limit)%nat)
  ∧ users d' = users d ∧ holdings d' = holdings d
  ∧ trades d' = trades d ∧ price_cache d' = price_cache d.
Proof.
  intros Hu. cbv zeta.
  split.
  { destruct (get_history _ _ _ _ _ _ _ _ _) as [o w'] eqn:Hrun.
    by eapply get_history_keeps_unique. }
  assert (∃ new, historical_data d = historical_data d ++ new
                 ∧ (length new ≤ limit)%nat) as Hsame.
  { exists []. rewrite app_nil_r. split; [done|cbn; lia]. }
  unfold get_history. run. cbn.
  destruct (Nat.leb _ _); [done|].
  destruct (get_historical_data _ _ _ _ _ _ _) as [[candles|e] w1] eqn:Hget.
  - apply get_historical_data_Return in Hget
      as (params & ts & volume & _ & -> & ->).
    destruct (for_each _ _ _ _) as [[[]|e] w2] eqn:Hloop.
    + destruct (for_each_cache_candle (upper symbol)
                  (normalize_resolution resolution)
                  (MarketDataService.detect_market (upper symbol))
                  (candles_of fromisoformat volume limit ts) env
                  {| db := db (world d calls);
                     provider_calls :=
                       provider_calls (world d calls) ++ [params] |})
        as (w2' & Hloop' & _ & Hc).
      rewrite Hloop in Hloop'. injection Hloop' as <-.
      apply for_each_cache_candle_appends in Hloop as (new & Hp & Hlen).
      cbn in Hp, Hc.
      destruct (commit_ok env); cbn; [|by rewrite Hc].
      rewrite Hp. cbn. split_and!; try done. exists new. split; [done|].
      etrans; [exact Hlen|]. unfold candles_of.
      rewrite length_reverse, length_fmap, length_take. lia.
    + destruct (for_each_cache_candle (upper symbol)
                  (normalize_resolution resolution)
                  (MarketDataService.detect_market (upper symbol))
                  (candles_of fromisoformat volume limit ts) env
                  {| db := db (world d calls);
                     provider_calls :=
                       provider_calls (world d calls) ++ [params] |})
        as (w2' & Hloop' & _). congruence.
  - cbn. assert (committed (db w1) = d) as ->; [|done].
    revert Hget.
    unfold get_historical_data, _get_stock_history, _get_crypto_history,
      _get_forex_history.
    destruct (MarketDataService.detect_market _); run;
      repeat match goal with
             | |- context [if ?b then _ else _] => destruct b
             end; try (by intros [= <- <-]);
      match goal with
      | |- context [alpha_vantage env ?r] => destruct (alpha_vantage env r)
      end; by intros [= <- <-].
Qed.

Lemma get_history_store_append_only_witness :
  ∃ new,
    historical_data
      (committed
         (db (get_history daily_clock "aapl" "1d" 2 None None 1 daily_env
                (world fresh_db [])).2))
    = historical_data fresh_db ++ new
    ∧ (length new ≤ 2)%nat.
Proof.
  refine (proj1 (proj2 (get_history_store_append_only daily_clock "aapl" "1d"
                          2 None None 1 daily_env fresh_db [] _))).
  apply NoDup_nil_2.
Defined.



(** X15. A successful [GetHistory] reports as [count] the number of
    candles it lists, never more than [limit]; an answer from the store
    lists exactly [limit]; and the response echoes the upper-cased symbol
    and the resolution as it was given, alias or not. *)
Theorem get_history_count_and_limit fromisoformat symbol resolution limit
    start_ts end_ts current_user env d calls r w' :
  get_history fromisoformat symbol resolution limit start_ts end_ts
    current_user env (world d calls) = (Return r, w') →
  hr_count r = length (hr_history r)
  ∧ (length (hr_history r) ≤ limit)%nat
  ∧ (hr_source r = "cache" → length (hr_history r) = limit)
  ∧ hr_symbol r = upper symbol
  ∧ hr_resolution r = resolution.
Proof.
  unfold get_history. run. cbn.
  fold (stored_candles symbol resolution start_ts end_ts d).
  set (stored := stored_candles symbol resolution start_ts end_ts d).
  assert (length (take limit (merge_sort timestamp_desc stored))
          = (limit `min` length stored)%nat) as Hlen.
  { by rewrite length_take, merge_sort_Permutation. }
  destruct (Nat.leb _ _) eqn:Hle.
  - intros [= <- <-]. cbn. apply Nat.leb_le in Hle.
    rewrite length_fmap, length_reverse. split_and!; try done; lia.
  - destruct (get_historical_data _ _ _ _ _ _ _) as [[candles|e] w1] eqn:Hget;
      [|done].
    apply get_historical_data_Return in Hget
      as (params & ts & volume & Hts & -> & ->).
    destruct (for_each_cache_candle (upper symbol)
                (normalize_resolution resolution)
                (MarketDataService.detect_market (upper symbol))
                (candles_of fromisoformat volume limit ts) env
                {| db := db (world d calls);
                   provider_calls := provider_calls (world d calls) ++ [params] |})
      as (w2 & -> & _ & _).
    destruct (commit_ok env); [|done]. cbn.
    intros [= <- <-]. cbn. split_and!; try done.
    unfold candles_of. rewrite length_reverse, length_fmap, length_take. lia.
Qed.

Lemma get_history_count_and_limit_witness :
  ∃ r w',
    get_history daily_clock "aapl" "1d" 2 None None 1 daily_env
      (world fresh_db []) = (Return r, w')
    ∧ hr_count r = length (hr_history r)
    ∧ hr_resolution r = "1d".
Proof.
  eexists _, _. split; [vm_compute; reflexivity|].
  edestruct (get_history_count_and_limit daily_clock "aapl" "1d" 2 None None
               1 daily_env fresh_db [])
    as (H1 & _ & _ & _ & H2); [vm_compute; reflexivity|].
  split; [exact H1|exact H2].
Defined.

Lemma chronological_Sorted history :
  chronological history →
  Sorted (λ a b, (c_timestamp a < c_timestamp b)%Z) history.
Proof.
  induction history as [|a l IH]; intros H; constructor.
  - apply IH. intros i x y Hx Hy. by apply (H (S i)).
  - destruct l as [|b l]; constructor. by apply (H 0%nat).
Qed.

Lemma Sorted_lt_NoDup (xs : list Z) : Sorted Z.lt xs → NoDup xs.
Proof.
  intros H. apply Sorted_StronglySorted in H; [|apply _].
  induction H as [|x l _ IH Hall]; constructor; [|done].
  intros Hin. eapply Forall_forall in Hall; [|exact Hin]. lia.
Qed.

(** Candles that are all new to the store, with pairwise distinct
    timestamps, are all inserted, in order. *)
Lemma for_each_cache_candle_fresh symbol resolution market candles env w :
  NoDup (c_timestamp <$> candles) →
  (∀ c h, c ∈ candles → h ∈ historical_data (pending (db w)) →
          ¬ (hd_symbol h = symbol ∧ hd_resolution h = resolution
             ∧ hd_timestamp h = c_timestamp c)) →
  for_each candles (cache_candle symbol resolution market) env w
  = (Return (),
     {| db :=
          {| committed := committed (db w);
             pending :=
               {| users := users (pending (db w));
                  holdings := holdings (pending (db w));
                  trades := trades (pending (db w));
                  price_cache := price_cache (pending (db w));
                  historical_data :=
                    historical_data (pending (db w))
                    ++ (stored_row symbol resolution market <$> candles) |} |};
        provider_calls := provider_calls w |}).
Proof.
  revert w. induction candles as [|c candles IH]; intros w Hnd Hnew.
  - cbn. rewrite app_nil_r. by destruct w as [[? []] ?].
  - rewrite fmap_cons in Hnd. apply NoDup_cons in Hnd as [Hc Hnd].
    cbn [for_each]. unfold mbind, Handler_bind.
    unfold cache_candle at 1. run.
    assert (head (filter (λ h, hd_symbol h = symbol
                               ∧ hd_resolution h = resolution
                               ∧ hd_timestamp h = c_timestamp c)
                    (historical_data (pending (db w)))) = None) as ->.
    { apply head_None.
      destruct (filter _ _) as [|h hs] eqn:E; [done|]. exfalso.
      assert (h ∈ filter (λ h, hd_symbol h = symbol
                               ∧ hd_resolution h = resolution
                               ∧ hd_timestamp h = c_timestamp c)
                    (historical_data (pending (db w)))) as Hin
        by (rewrite E; left).
      apply list_elem_of_filter in Hin as [Hk Hin].
      eapply Hnew; [left|exact Hin|exact Hk]. }
    cbn. rewrite IH; [|done|].
    + cbn. unfold add_historical_data. cbn. by rewrite <- app_assoc.
    + cbn. intros c' h Hc' Hh (Hs & Hr & Ht).
      apply elem_of_app in Hh as [Hh|Hh].
      * eapply Hnew; [by right|exact Hh|done].
      * apply list_elem_of_singleton in Hh as ->. cbn in Ht.
        apply Hc. rewrite Ht. by apply list_elem_of_fmap_2.
Qed.

Lemma stored_rows_filter symbol resolution market (candles : list Candle) :
  filter (λ h, Is_true (history_filter symbol resolution None None h))
    (stored_row symbol resolution market <$> candles)
  = stored_row symbol resolution market <$> candles.
Proof.
  induction candles as [|c candles IH]; [done|].
  rewrite fmap_cons, filter_cons_True; [by rewrite IH|].
  unfold history_filter. cbn. by rewrite !bool_decide_eq_true_2.
Qed.

Lemma candle_of_stored_row symbol resolution market
    (candles : list Candle) :
  candle_of_row <$> (stored_row symbol resolution market <$> candles)
  = candles.
Proof.
  rewrite <- list_fmap_compose. induction candles as [|[] candles IH]; [done|].
  cbn. by rewrite IH.
Qed.

(** Rows inserted in chronological order come back from the descending
    sort in exactly the reverse order. *)
Lemma merge_sort_stored_rows symbol resolution market candles :
  chronological candles →
  merge_sort timestamp_desc (stored_row symbol resolution market <$> candles)
  = reverse (stored_row symbol resolution market <$> candles).
Proof.
  intros Hchron. apply chronological_Sorted in Hchron.
  set (rows := stored_row symbol resolution market <$> candles).
  assert (Sorted (λ a b, (hd_timestamp a < hd_timestamp b)%Z) rows) as Hrows.
  { unfold rows. eapply Sorted_fmap; [|exact Hchron]. by intros a b. }
  assert (NoDup (hd_timestamp <$> rows)) as Hnd.
  { apply Sorted_lt_NoDup. eapply Sorted_fmap; [|exact Hrows]. by intros a b. }
  apply (Sorted_unique_strong timestamp_desc).
  - intros x1 x2 H1 H2 H12 H21.
    apply (NoDup_fmap_elem_inj hd_timestamp rows); try done.
    + by rewrite merge_sort_Permutation in H1.
    + by rewrite <- elem_of_reverse.
    + unfold timestamp_desc in *. lia.
  - apply Sorted_merge_sort. apply _.
  - apply Sorted_reverse in Hrows.
    rewrite <- (list_fmap_id (reverse rows)).
    eapply Sorted_fmap; [|exact Hrows].
    intros a b. unfold flip, timestamp_desc. cbn. lia.
  - by rewrite merge_sort_Permutation, reverse_Permutation.
Qed.

(** X16. A history fetched into a store that had no row for the symbol
    and resolution is served from the store afterwards: if the provider
    returned the [limit] candles asked for, the same request made again
    (with no range) is answered with the same candles, tagged ["cache"],
    with no provider call and no write. *)
Theorem fetched_history_served_from_cache fromisoformat symbol resolution
    limit current_user env1 env2 d calls r1 w1 :
  stored_candles symbol resolution None None d = [] →
  (∀ params time_series,
     alpha_vantage env1 params = Series time_series →
     series_ok fromisoformat time_series) →
  get_history fromisoformat symbol resolution limit None None current_user
    env1 (world d calls) = (Return r1, w1) →
  length (hr_history r1) = limit →
  ∃ r2,
    get_history fromisoformat symbol resolution limit None None current_user
      env2 w1 = (Return r2, w1)
    ∧ hr_history r2 = hr_history r1
    ∧ hr_source r2 = "cache".
Proof.
  intros Hempty Hseries Hrun Hlen. revert Hrun.
  unfold get_history at 1. run. cbn.
  fold (stored_candles symbol resolution None None d). rewrite Hempty.
  change (merge_sort timestamp_desc []) with (@nil HistoricalData).
  rewrite take_nil. cbn [length].
  destruct limit as [|n]; cbn [Nat.leb].
  - intros [= <- <-]. eexists. split.
    { unfold get_history. run. cbn.
      fold (stored_candles symbol resolution None None d). rewrite Hempty.
      reflexivity. }
    split; reflexivity.
  - destruct (get_historical_data _ _ _ _ _ _ _) as [[candles|e] w2] eqn:Hget;
      [|done].
    apply get_historical_data_Return in Hget
      as (params & ts & volume & Hts & -> & ->).
    set (candles := candles_of fromisoformat volume (S n) ts) in *.
    assert (chronological candles) as Hchron
      by (eapply candles_of_chronological, Hseries, Hts).
    rewrite for_each_cache_candle_fresh; cycle 1.
    { apply Sorted_lt_NoDup. eapply Sorted_fmap;
        [|exact (chronological_Sorted _ Hchron)]. by intros a b. }
    { cbn. intros c h _ Hh (Hs & Hr & _).
      assert (h ∈ stored_candles symbol resolution None None d) as Hin.
      { unfold stored_candles. apply list_elem_of_filter. split; [|done].
        unfold history_filter. cbn. by rewrite !bool_decide_eq_true_2. }
      rewrite Hempty in Hin. by apply elem_of_nil in Hin. }
    cbn. destruct (commit_ok env1); [|done]. cbn.
    intros [= <- <-]. cbn in Hlen. eexists. split.
    { unfold get_history. run. cbn -[reverse].
      rewrite filter_app.
      fold (stored_candles symbol resolution None None d). rewrite Hempty.
      rewrite app_nil_l, stored_rows_filter, merge_sort_stored_rows by done.
      rewrite take_ge by (rewrite length_reverse, length_fmap; lia).
      rewrite length_reverse, length_fmap, Hlen, Nat.leb_refl.
      rewrite reverse_involutive, candle_of_stored_row. reflexivity. }
    split; reflexivity.
Qed.

Lemma fetched_history_served_from_cache_witness :
  ∃ r1 w1 r2,
    get_history daily_clock "aapl" "1d" 2 None None 1 daily_env
      (world fresh_db []) = (Return r1, w1)
    ∧ get_history daily_clock "aapl" "1d" 2 None None 1
        {| now := 1704400000; alpha_vantage := λ _, HttpFailure;
           commit_ok := false |} w1 = (Return r2, w1)
    ∧ hr_history r2 = hr_history r1
    ∧ hr_source r2 = "cache".
Proof.
  eexists _, _.
  edestruct (fetched_history_served_from_cache daily_clock "aapl" "1d" 2 1
               daily_env
               {| now := 1704400000; alpha_vantage := λ _, HttpFailure;
                  commit_ok := false |} fresh_db [])
    as (r2 & H2 & Hh & Hs).
  - vm_compute; reflexivity.
  - intros params ts [= <-]. exact daily_series_ok.
  - vm_compute; reflexivity.
  - vm_compute; reflexivity.
  - exists r2. split; [vm_compute; reflexivity|]. split; [exact H2|].
    split; [exact Hh|exact Hs].
Defined.

(** * Portfolio valuation *)

(** One row of the valuation loop: it never raises, sends one query to
    the provider, and appends one item for the row. *)
Lemma value_holding_run symbol holding locals env w :
  ∃ item total,
    value_holding symbol holding locals env w
    = (Return (locals.1 ++ [item], total),
       {| db := db w;
          provider_calls := provider_calls w ++ [price_request symbol] |})
    ∧ (total == locals.2 + position_value item)%Q
    ∧ hi_symbol item = symbol
    ∧ hi_market item = h_market holding
    ∧ hi_quantity item = h_quantity holding
    ∧ hi_average_price item = h_average_price holding
    ∧ hi_current_price item = listed_price env symbol holding
    ∧ hi_unrealized_pnl item
      = (λ p, ((p - h_average_price holding) * h_quantity holding)%Q)
        <$> listed_price env symbol holding
    ∧ hi_unrealized_pnl_percent item
      = (λ p, ((p - h_average_price holding) / h_average_price holding
               * 100)%Q)
        <$> listed_price env symbol holding.
Proof.
  unfold value_holding, listed_price. run.
  destruct (MarketDataService_get_price_run symbol env w)
    as [(p & Hq & ->)|(e & _ & He & ->)].
  - rewrite Hq. cbn. destruct (Qeq_bool _ _); cbn.
    + eexists _, _. split; [reflexivity|]. split; [|done].
      unfold position_value. cbn. ring.
    + eexists _, _. split; [reflexivity|]. split; [|done].
      unfold position_value. cbn. ring.
  - cbn. eexists _, _. split; [reflexivity|].
    assert (match alpha_vantage env (price_request symbol) with
            | Quote p =>
                if Qeq_bool (h_average_price holding) 0 then None else Some p
            | _ => None
            end = None) as ->.
    { destruct (alpha_vantage env _) eqn:E; try done. by destruct (He price). }
    split; [|done]. unfold position_value. cbn. ring.
Qed.

(** The whole loop, from any value of the local variables. *)
Lemma for_fold_value_holding rows locals env w :
  ∃ items total,
    for_fold rows (λ row : nat * string * Holding,
                     value_holding row.1.2 row.2) locals env w
    = (Return (locals.1 ++ items, total),
       {| db := db w;
          provider_calls :=
            provider_calls w ++ ((λ row, price_request row.1.2) <$> rows) |})
    ∧ (total == locals.2 + Qsum (position_value <$> items))%Q
    ∧ Forall2 (λ (row : nat * string * Holding) item,
                 hi_symbol item = row.1.2
                 ∧ hi_market item = h_market row.2
                 ∧ hi_quantity item = h_quantity row.2
                 ∧ hi_average_price item = h_average_price row.2
                 ∧ hi_current_price item = listed_price env row.1.2 row.2
                 ∧ hi_unrealized_pnl item
                   = (λ p, ((p - h_average_price row.2)
                            * h_quantity row.2)%Q)
                     <$> listed_price env row.1.2 row.2
                 ∧ hi_unrealized_pnl_percent item
                   = (λ p, ((p - h_average_price row.2)
                            / h_average_price row.2 * 100)%Q)
                     <$> listed_price env row.1.2 row.2)
        rows items.
Proof.
  revert locals w. induction rows as [|row rows IH]; intros locals w.
  - exists [], locals.2. cbn. rewrite !app_nil_r.
    split; [by destruct locals, w|]. split; [|constructor].
    unfold Qsum. cbn. ring.
  - cbn [for_fold]. unfold mbind, Handler_bind.
    destruct (value_holding_run row.1.2 row.2 locals env w)
      as (item & total & -> & Htot & Hitem).
    destruct (IH (locals.1 ++ [item], total)
                {| db := db w;
                   provider_calls :=
                     provider_calls w ++ [price_request row.1.2] |})
      as (items & total' & -> & Htot' & Hitems).
    exists (item :: items), total'. cbn.
    rewrite <- !app_assoc. split; [done|].
    split; [|by constructor].
    rewrite Htot'. cbn. rewrite Htot. unfold Qsum. cbn. ring.
Qed.

(** X17. [GetHoldings] never fails and never writes: it lists one item
    per ledger row of the user, in the order of the rows, sends one
    provider query per row, and leaves the database as it was. A row is
    listed with a current price, and with both profit figures, exactly
    when the provider quoted its symbol and its average price is not zero;
    otherwise it is listed with its quantity and average price alone. *)
Theorem get_holdings_isolates_price_failures settings current_user env
    d calls :
  ∃ r,
    get_holdings settings current_user env (world d calls)
    = (Return r,
       world d
         (calls ++ ((λ row, price_request row.1.2)
                    <$> holdings_of current_user d)))
    ∧ Forall2
        (λ (row : nat * string * Holding) item,
           hi_symbol item = row.1.2
           ∧ hi_quantity item = h_quantity row.2
           ∧ hi_average_price item = h_average_price row.2
           ∧ (∀ p, hi_current_price item = Some p
                   ↔ alpha_vantage env (price_request row.1.2) = Quote p
                     ∧ ¬ (h_average_price row.2 == 0)%Q)
           ∧ (is_Some (hi_current_price item)
              ↔ is_Some (hi_unrealized_pnl item))
           ∧ (is_Some (hi_current_price item)
              ↔ is_Some (hi_unrealized_pnl_percent item)))
        (holdings_of current_user d) (hs_holdings r).
Proof.
  unfold get_holdings. run. cbn.
  destruct (for_fold_value_holding (holdings_of current_user d) ([], 0%Q) env
              (world d calls)) as (items & total & -> & _ & Hitems).
  cbn. eexists. split; [reflexivity|]. cbn.
  eapply Forall2_impl; [exact Hitems|].
  intros row item (Hs & _ & Hq & Ha & Hp & Hpnl & Hpct). cbn beta.
  rewrite Hp, Hpnl, Hpct. split_and!; try done.
  - intros p. unfold listed_price.
    destruct (alpha_vantage env _) as [| |p'|]; try (split; [done|by intros []]).
    destruct (Qeq_bool _ _) eqn:Hz.
    + apply Qeq_bool_iff in Hz. split; [done|]. by intros [_ []].
    + apply Qeq_bool_false_neq in Hz. split.
      * by intros [= ->].
      * by intros [[= ->] _].
  - by rewrite fmap_is_Some.
  - by rewrite fmap_is_Some.
Qed.

(** X18. The totals of [GetHoldings] add up: [total_value] is the sum,
    over the items listed with a current price, of price times quantity;
    [cash_balance] is the user's balance; [total_portfolio_value] is their
    sum; and [realized_pnl] is absent while the user has no trade and is
    the balance minus [DEFAULT_BALANCE] afterwards. *)
Theorem get_holdings_totals settings current_user env d calls :
  ∃ r w',
    get_holdings settings current_user env (world d calls) = (Return r, w')
    ∧ (hs_total_value r == Qsum (position_value <$> hs_holdings r))%Q
    ∧ hs_cash_balance r = balance_of d current_user
    ∧ hs_total_portfolio_value r
      = (hs_cash_balance r + hs_total_value r)%Q
    ∧ hs_realized_pnl r
      = (if decide (Exists (λ t, t_user_id t = current_user) (trades d))
         then Some (balance_of d current_user - DEFAULT_BALANCE settings)%Q
         else None).
Proof.
  unfold get_holdings. run. cbn.
  destruct (for_fold_value_holding (holdings_of current_user d) ([], 0%Q) env
              (world d calls)) as (items & total & -> & Htot & _).
  cbn. eexists _, _. split; [reflexivity|]. cbn.
  split; [rewrite Htot; unfold Qsum; cbn; ring|]. split_and!; try done.
  destruct (filter _ (trades d)) as [|t ts] eqn:E.
  - rewrite decide_False; [done|]. intros Hex.
    apply Exists_exists in Hex as (t & Hin & Ht).
    eapply (filter_nil_not_elem_of _ _ t E); [exact Ht|exact Hin].
  - rewrite decide_True; [done|].
    assert (t ∈ filter (λ t, t_user_id t = current_user) (trades d)) as Hin
      by (rewrite E; left).
    apply list_elem_of_filter in Hin as [Ht Hin].
    apply Exists_exists. eauto.
Qed.

(** * Market hours *)

Lemma time_le_replace_time now h m h' m' :
  (h < h')%nat →
  time_le (replace_time now h m) now = true →
  time_le now (replace_time now h' m') = true →
  (h ≤ hour now ≤ h')%nat.
Proof.
  unfold time_le, replace_time.
  cbn [hour minute second microsecond weekday]. intros Hh H1 H2.
  destruct (Nat.ltb_spec h (hour now)), (Nat.ltb_spec (hour now) h'),
    (Nat.ltb_spec (hour now) h), (Nat.ltb_spec h' (hour now));
    try lia; try done.
Qed.

(** X19. The three markets are nested: whenever the stock market is
    open the forex market is open, and the crypto market is open at all
    times; the stock market is open only from Monday to Friday and only
    between 9 and 16 hours, and on Saturday and Sunday neither stocks nor
    forex trade. *)
Theorem market_hours_nested now :
  is_market_open now CRYPTO = true
  ∧ (is_market_open now STOCK = true → is_market_open now FOREX = true)
  ∧ (is_market_open now STOCK = true →
     (weekday now < 5 ∧ 9 ≤ hour now ≤ 16)%nat)
  ∧ ((5 ≤ weekday now)%nat →
     is_market_open now STOCK = false ∧ is_market_open now FOREX = false).
Proof.
  split; [done|]. unfold is_market_open.
  destruct (Nat.leb_spec 5 (weekday now)) as [Hw|Hw].
  - split; [done|]. split; [done|]. intros _. split; [done|].
    by apply Nat.ltb_ge.
  - split; [intros _; by apply Nat.ltb_lt|]. split; [|lia].
    intros H. apply andb_true_iff in H as [H1 H2]. split; [done|].
    by apply (time_le_replace_time now 9 30 16 0); [lia|..].
Qed.

(** X20. [GetMarketStatus] reads no table and calls no provider. When a
    non-empty symbol is given it never fails and answers for the market of
    the upper-cased symbol, whatever the [market] parameter says; without
    a symbol it answers for the market named by [market], in any letter
    case, and fails with a 400 when [market] is missing, empty or not one
    of stock, crypto and forex. *)
Theorem get_market_status_by_symbol_or_market now symbol market current_user
    env w :
  let result := get_market_status now symbol market current_user env w in
  result.2 = w
  ∧ (∀ s, symbol = Some s → s ≠ "" →
          result.1
          = Return (is_market_open now
                      (MarketDataService.detect_market s)))
  ∧ (given symbol = None →
     (∀ m market_type,
        market = Some m →
        (lower m, market_type)
        ∈ [("stock", STOCK); ("crypto", CRYPTO); ("forex", FOREX)] →
        result.1 = Return (is_market_open now market_type))
     ∧ ((∀ m, market = Some m →
              lower m ∉ ["stock"; "crypto"; "forex"]) →
        ∃ detail, result.1 = Raise (HTTPException 400 detail))).
Proof.
  cbv zeta. unfold get_market_status. run. split_and!.
  - destruct (given symbol); cbn; [done|].
    destruct (given market); cbn; [|done].
    unfold MarketType_of_value. run.
    by repeat (destruct (bool_decide _); cbn; [done|]).
  - intros s -> Hs. assert (given (Some s) = Some s) as ->.
    { by destruct s. }
    cbn. by rewrite detect_market_upper.
  - intros ->. split.
    + intros m mt -> Hin.
      assert (given (Some m) = Some m) as ->.
      { destruct m; [|done]. cbn in Hin.
        repeat (apply elem_of_cons in Hin as [[=]|Hin]).
        by apply elem_of_nil in Hin. }
      cbn. unfold MarketType_of_value. run.
      repeat (apply elem_of_cons in Hin as [[= -> ->]|Hin]); try done.
      by apply elem_of_nil in Hin.
    + intros Hbad. destruct market as [m|]; [|by eexists].
      destruct (given (Some m)) as [m'|] eqn:Hg; [|by eexists].
      assert (m' = m) as -> by (destruct m; cbn in Hg; congruence).
      cbn. unfold MarketType_of_value. run.
      specialize (Hbad m eq_refl).
      repeat match goal with
             | |- context [bool_decide (?x = ?y)] =>
                 destruct (bool_decide_reflect (x = y)) as [E|_];
                 [exfalso; apply Hbad; rewrite E;
                  by apply (bool_decide_unpack _); vm_compute|]
             end.
      cbn. by eexists.
Qed.

(** * Account reset *)

(** What [reset_user] does to a database when it goes through. *)
Lemma reset_user_run settings user_by_api_key api_key env d calls :
  reset_user settings user_by_api_key api_key env (world d calls)
  = match user_by_api_key api_key with
    | Some user =>
        if commit_ok env then
          (Return
             (Some {| rr_user_id := user;
                      rr_trades_deleted :=
                        length (filter (λ t, t_user_id t = user) (trades d));
                      rr_holdings_deleted :=
                        size (filter (λ row : nat * string * Holding,
                                        row.1.1 = user) (holdings d));
                      rr_balance := DEFAULT_BALANCE settings |}),
           world
             {| users := <[user := DEFAULT_BALANCE settings]> (users d);
                holdings :=
                  filter (λ row : nat * string * Holding, row.1.1 ≠ user)
                    (holdings d);
                trades := filter (λ t, t_user_id t ≠ user) (trades d);
                price_cache := price_cache d;
                historical_data := historical_data d |}
             calls)
        else (Return None, world d calls)
    | None => (Return None, world d calls)
    end.
Proof.
  unfold reset_user. destruct (user_by_api_key api_key) as [user|]; [|done].
  run. cbn. destruct (commit_ok env); cbn; [|done].
  unfold balance_of, set_balance. cbn. by rewrite lookup_insert_eq.
Qed.

(** X21. [reset_user] is all or nothing. With an unknown API key or a
    failed commit the script exits with status 1 and the database is as it
    was. Otherwise the user's balance is [DEFAULT_BALANCE], the user has
    no ledger row and no trade left, every other account keeps its
    balance, its ledger rows and its trades in their order, the price
    cache and the candle store are untouched, and the two counts reported
    are the numbers of rows removed. *)
Theorem reset_user_clears_one_account settings user_by_api_key api_key env
    d calls :
  let result :=
    reset_user settings user_by_api_key api_key env (world d calls) in
  let d' := committed (db result.2) in
  result.2 = world d' calls
  ∧ (result.1 = Return None
     ↔ user_by_api_key api_key = None ∨ commit_ok env = false)
  ∧ (result.1 = Return None → d' = d)
  ∧ ∀ report, result.1 = Return (Some report) →
      user_by_api_key api_key = Some (rr_user_id report)
      ∧ balance_of d' (rr_user_id report) = DEFAULT_BALANCE settings
      ∧ rr_balance report = DEFAULT_BALANCE settings
      ∧ (∀ symbol, holdings d' !! (rr_user_id report, symbol) = None)
      ∧ Forall (λ t, t_user_id t ≠ rr_user_id report) (trades d')
      ∧ (∀ other, other ≠ rr_user_id report →
           users d' !! other = users d !! other
           ∧ (∀ symbol,
                holdings d' !! (other, symbol) = holdings d !! (other, symbol))
           ∧ filter (λ t, t_user_id t = other) (trades d')
             = filter (λ t, t_user_id t = other) (trades d))
      ∧ price_cache d' = price_cache d
      ∧ historical_data d' = historical_data d
      ∧ (length (trades d')
         + rr_trades_deleted report = length (trades d))%nat
      ∧ (size (holdings d')
         + rr_holdings_deleted report = size (holdings d))%nat.
Proof.
  cbv zeta. rewrite reset_user_run.
  destruct (user_by_api_key api_key) as [user|]; cycle 1.
  { cbn. split; [done|]. split; [split; auto|]. split; [done|].
    by intros ? [=]. }
  destruct (commit_ok env); cycle 1.
  { cbn. split; [done|]. split; [split; auto|]. split; [done|].
    by intros ? [=]. }
  cbn. split; [done|]. split; [split; [done|by intros [|]]|].
  split; [done|]. intros report [= <-]. cbn.
  split_and!; try done.
  - unfold balance_of. cbn. by rewrite lookup_insert_eq.
  - intros symbol. apply map_lookup_filter_None. right. intros h _. cbn. tauto.
  - apply Forall_forall. intros t Ht.
    by apply list_elem_of_filter in Ht as [Ht _].
  - intros other Hne. split_and!.
    + by rewrite lookup_insert_ne.
    + intros symbol.
      destruct (holdings d !! (other, symbol)) as [h|] eqn:Hh.
      * by apply map_lookup_filter_Some.
      * apply map_lookup_filter_None. by left.
    + apply list_filter_filter_l. intros t Ht. congruence.
  - induction (trades d) as [|t ts IH]; [done|].
    rewrite !filter_cons. destruct (decide (t_user_id t = user)) as [E|E].
    + rewrite decide_False by tauto. cbn. lia.
    + rewrite decide_True by done. cbn. lia.
  - pose proof (map_filter_union_complement
                  (λ row : nat * string * Holding, row.1.1 = user)
                  (holdings d)) as Hu.
    apply (f_equal size) in Hu.
    rewrite map_size_disj_union in Hu
      by apply map_disjoint_filter_complement.
    lia.
Qed.

(** X22. [reset_user] is idempotent: resetting an account that was just
    reset changes nothing and reports that no trade and no ledger row was
    removed. *)
Theorem reset_user_idempotent settings user_by_api_key api_key env1 env2
    d calls report w1 :
  reset_user settings user_by_api_key api_key env1 (world d calls)
    = (Return (Some report), w1) →
  commit_ok env2 = true →
  reset_user settings user_by_api_key api_key env2 w1
  = (Return (Some {| rr_user_id := rr_user_id report;
                     rr_trades_deleted := 0;
                     rr_holdings_deleted := 0;
                     rr_balance := DEFAULT_BALANCE settings |}),
     w1).
Proof.
  rewrite reset_user_run.
  destruct (user_by_api_key api_key) as [user|] eqn:Hu; [|done].
  destruct (commit_ok env1); [|done].
  intros [= <- <-] Hok. rewrite reset_user_run, Hu, Hok. cbn.
  assert (∀ ts : list Trade,
            filter (λ t, t_user_id t = user)
              (filter (λ t, t_user_id t ≠ user) ts) = []) as Hnone.
  { intros ts. induction ts as [|t ts IH]; [done|].
    rewrite filter_cons. destruct (decide (t_user_id t ≠ user)); [|done].
    by rewrite filter_cons_False. }
  rewrite Hnone. cbn [length].
  assert (filter (λ row : nat * string * Holding, row.1.1 = user)
            (filter (λ row : nat * string * Holding, row.1.1 ≠ user)
               (holdings d)) = ∅) as ->.
  { apply map_eq. intros k. rewrite lookup_empty.
    apply map_lookup_filter_None. right. intros h Hh.
    by apply map_lookup_filter_Some in Hh as [_ Hh]. }
  rewrite map_size_empty, insert_insert_eq.
  rewrite list_filter_filter_l by done.
  assert (filter (λ row : nat * string * Holding, row.1.1 ≠ user)
            (filter (λ row : nat * string * Holding, row.1.1 ≠ user)
               (holdings d))
          = filter (λ row : nat * string * Holding, row.1.1 ≠ user)
              (holdings d)) as ->.
  { apply map_eq. intros k. apply option_eq. intros h.
    rewrite !map_lookup_filter_Some. tauto. }
  done.
Qed.

Lemma reset_user_idempotent_witness :
  ∃ w1,
    reset_user default_settings (λ _, Some 1%nat) "key" (quoting 0 0)
      (world ledger_db [])
    = (Return (Some {| rr_user_id := 1; rr_trades_deleted := 0;
                       rr_holdings_deleted := 1; rr_balance := 100000 |}),
       w1)
    ∧ reset_user default_settings (λ _, Some 1%nat) "key" (quoting 0 1) w1
      = (Return (Some {| rr_user_id := 1; rr_trades_deleted := 0;
                         rr_holdings_deleted := 0;
                         rr_balance := 100000 |}), w1).
Proof.
  eexists. split; [vm_compute; reflexivity|].
  refine (reset_user_idempotent default_settings (λ _, Some 1%nat) "key"
            (quoting 0 0) (quoting 0 1) ledger_db []
            {| rr_user_id := 1; rr_trades_deleted := 0;
               rr_holdings_deleted := 1; rr_balance := 100000 |} _ _ eq_refl).
  vm_compute; reflexivity.
Defined.

(** X23. After a reset the account reads as new: [GetHoldings] lists no
    position, reports no realized profit, the default balance as cash and
    as total portfolio value, and calls no provider. *)
Theorem reset_user_then_get_holdings settings user_by_api_key api_key env1
    env2 d calls report w1 :
  reset_user settings user_by_api_key api_key env1 (world d calls)
    = (Return (Some report), w1) →
  ∃ r,
    get_holdings settings (rr_user_id report) env2 w1 = (Return r, w1)
    ∧ hs_holdings r = []
    ∧ hs_realized_pnl r = None
    ∧ hs_cash_balance r = DEFAULT_BALANCE settings
    ∧ (hs_total_value r == 0)%Q
    ∧ (hs_total_portfolio_value r == DEFAULT_BALANCE settings)%Q.
Proof.
  rewrite reset_user_run.
  destruct (user_by_api_key api_key) as [user|] eqn:Hu; [|done].
  destruct (commit_ok env1); [|done].
  intros [= <- <-]. cbn [rr_user_id].
  set (d' := {| users := <[user := DEFAULT_BALANCE settings]> (users d);
                holdings := filter (λ row : nat * string * Holding,
                                      row.1.1 ≠ user) (holdings d);
                trades := filter (λ t, t_user_id t ≠ user) (trades d);
                price_cache := price_cache d;
                historical_data := historical_data d |}).
  assert (holdings_of user d' = []) as Hrows.
  { unfold holdings_of.
    destruct (filter _ (map_to_list (holdings d'))) as [|row rows] eqn:E;
      [done|]. exfalso.
    assert (row ∈ filter (λ row : nat * string * Holding, row.1.1 = user)
                    (map_to_list (holdings d'))) as Hin by (rewrite E; left).
    apply list_elem_of_filter in Hin as [Hrow Hin].
    destruct row as [k h]. apply elem_of_map_to_list in Hin.
    unfold d' in Hin. cbn in Hin.
    by apply map_lookup_filter_Some in Hin as [_ Hin]. }
  assert (filter (λ t, t_user_id t = user) (trades d') = []) as Htrades.
  { destruct (filter _ (trades d')) as [|t ts] eqn:E; [done|]. exfalso.
    assert (t ∈ filter (λ t, t_user_id t = user) (trades d')) as Hin
      by (rewrite E; left).
    apply list_elem_of_filter in Hin as [Ht Hin]. unfold d' in Hin.
    cbn in Hin. by apply list_elem_of_filter in Hin as [Hne _]. }
  assert (balance_of d' user = DEFAULT_BALANCE settings) as Hbal.
  { unfold balance_of, d'. cbn. by rewrite lookup_insert_eq. }
  clearbody d'. unfold get_holdings. run. cbn. rewrite Hrows. cbn.
  rewrite Htrades, Hbal.
  eexists. split; [reflexivity|]. cbn.
  split_and!; try done. ring.
Qed.

Lemma reset_user_then_get_holdings_witness :
  ∃ report w1 r,
    reset_user default_settings (λ _, Some 1%nat) "key" (quoting 0 0)
      (world ledger_db []) = (Return (Some report), w1)
    ∧ get_holdings default_settings 1 (quoting 100 1) w1 = (Return r, w1)
    ∧ hs_holdings r = [].
Proof.
  eexists _, _.
  edestruct (reset_user_then_get_holdings default_settings
               (λ _, Some 1%nat) "key" (quoting 0 0) (quoting 100 1)
               ledger_db [])
    as (r & H1 & H2 & _); [vm_compute; reflexivity|].
  exists r. split; [vm_compute; reflexivity|]. split; [exact H1|exact H2].
Defined.

(** * Account creation *)

(** The key loop ends on the first draw that is not in use, as soon as the
    fuel reaches it. *)
Lemma unique_api_key_first_free fuel tokens taken n i :
  (∀ j, (j < i)%nat → taken (tokens (n + j)%nat) = true) →
  taken (tokens (n + i)%nat) = false →
  (i < fuel)%nat →
  unique_api_key fuel tokens taken n = Some (tokens (n + i)%nat).
Proof.
  revert fuel n. induction i as [|i IH]; intros fuel n Hbefore Hfree Hfuel.
  - destruct fuel as [|fuel]; [lia|]. cbn.
    rewrite Nat.add_0_r in Hfree. rewrite Hfree. by rewrite Nat.add_0_r.
  - destruct fuel as [|fuel]; [lia|]. cbn.
    pose proof (Hbefore 0%nat ltac:(lia)) as H0.
    rewrite Nat.add_0_r in H0. rewrite H0.
    replace (n + S i)%nat with (S n + i)%nat by lia.
    apply IH; [|by replace (S n + i)%nat with (n + S i)%nat by lia|lia].
    intros j Hj. replace (S n + j)%nat with (n + S j)%nat by lia.
    apply Hbefore. lia.
Qed.

Lemma unique_api_key_free fuel tokens taken n key :
  unique_api_key fuel tokens taken n = Some key → taken key = false.
Proof.
  revert n. induction fuel as [|fuel IH]; intros n; [done|]. cbn.
  destruct (taken (tokens n)) eqn:E; [apply IH|]. by intros [= <-].
Qed.

Lemma new_user_id_fresh d : users d !! new_user_id d = None.
Proof. apply not_elem_of_dom. unfold new_user_id. apply is_fresh. Qed.

(** X24. [register_user] creates exactly one account. When the [i]-th
    drawn key is the first one not in use, the loop ends there (given fuel
    for [i+1] draws); the response carries that key and a user id that
    was not in use; the new balance is the requested one, except that a
    missing body, a missing balance and a balance of zero all give
    [DEFAULT_BALANCE]; every existing balance and every other table is
    unchanged. If the commit fails, the answer is a 500 and the database
    is as it was. *)
Theorem register_user_creates_account settings fuel tokens taken user_data
    env d calls i :
  (∀ j, (j < i)%nat → taken (tokens j) = true) →
  taken (tokens i) = false →
  (i < fuel)%nat →
  let balance :=
    match user_data with
    | Some (Some b) => if Qeq_bool b 0 then DEFAULT_BALANCE settings else b
    | _ => DEFAULT_BALANCE settings
    end in
  if commit_ok env then
    ∃ r d',
      register_user settings fuel tokens taken user_data env (world d calls)
      = Some (Return r, world d' calls)
      ∧ ucr_api_key r = tokens i
      ∧ users d !! ucr_user_id r = None
      ∧ users d' = <[ucr_user_id r := balance]> (users d)
      ∧ ucr_balance r = balance
      ∧ holdings d' = holdings d ∧ trades d' = trades d
      ∧ price_cache d' = price_cache d
      ∧ historical_data d' = historical_data d
  else
    ∃ detail,
      register_user settings fuel tokens taken user_data env (world d calls)
      = Some (Raise (HTTPException 500 detail), world d calls).
Proof.
  intros Hbefore Hfree Hfuel balance. unfold register_user.
  rewrite (unique_api_key_first_free fuel tokens taken 0 i); try done.
  cbn [mbind option_bind]. run. cbn. fold balance.
  destruct (commit_ok env); cbn.
  - eexists _, _. split; [reflexivity|]. cbn.
    split_and!; try done.
    + apply new_user_id_fresh.
    + unfold balance_of. cbn. by rewrite lookup_insert_eq.
  - by eexists.
Qed.

Lemma register_user_creates_account_witness :
  ∃ r d',
    register_user default_settings 2 (λ n, if n is O then "used" else "free")
      (λ key, bool_decide (key = "used")) (Some (Some 0%Q)) (quoting 0 0)
      (world fresh_db [])
    = Some (Return r, world d' [])
    ∧ ucr_api_key r = "free"
    ∧ ucr_balance r = 100000%Q.
Proof.
  pose proof (register_user_creates_account default_settings 2
                (λ n, if n is O then "used" else "free")
                (λ key, bool_decide (key = "used")) (Some (Some 0%Q))
                (quoting 0 0) fresh_db [] 1) as H.
  cbn in H. destruct H as (r & d' & H1 & H2 & _ & _ & H3 & _).
  - intros [|j] Hj; [done|lia].
  - done.
  - lia.
  - exists r, d'. split; [exact H1|]. split; [exact H2|exact H3].
Defined.

(** X25. The script [create_user] follows the same steps but defaults the
    balance only when none is given: a balance of zero stays zero, where
    [register_user] turns it into [DEFAULT_BALANCE]. On every other input
    the two create the same account. *)
Theorem create_user_keeps_zero_balance settings fuel tokens taken balance
    env d calls i :
  (∀ j, (j < i)%nat → taken (tokens j) = true) →
  taken (tokens i) = false →
  (i < fuel)%nat →
  commit_ok env = true →
  let initial :=
    match balance with Some b => b | None => DEFAULT_BALANCE settings end in
  create_user settings fuel tokens taken balance env (world d calls)
  = Some (Return (Some (tokens i, initial)),
          world (add_user initial d) calls)
  ∧ (¬ (initial == 0)%Q →
     ∃ r,
       register_user settings fuel tokens taken (Some balance) env
         (world d calls)
       = Some (Return r, world (add_user initial d) calls)
       ∧ ucr_api_key r = tokens i ∧ ucr_balance r = initial)
  ∧ (balance = Some 0%Q →
     ∃ r,
       register_user settings fuel tokens taken (Some balance) env
         (world d calls)
       = Some (Return r, world (add_user (DEFAULT_BALANCE settings) d) calls)
       ∧ ucr_balance r = DEFAULT_BALANCE settings).
Proof.
  intros Hbefore Hfree Hfuel Hok initial.
  unfold create_user, register_user.
  rewrite (unique_api_key_first_free fuel tokens taken 0 i); try done.
  cbn [mbind option_bind]. run. cbn. rewrite Hok. cbn.
  fold initial. split; [done|]. split.
  - intros Hnz.
    assert (match balance with
            | Some b => if Qeq_bool b 0 then DEFAULT_BALANCE settings else b
            | None => DEFAULT_BALANCE settings
            end = initial) as ->.
    { unfold initial in *. destruct balance as [b|]; [|done].
      assert (Qeq_bool b 0 = false) as ->; [|done].
      apply not_true_iff_false. by rewrite Qeq_bool_iff. }
    eexists. split; [reflexivity|]. cbn. split; [done|].
    unfold balance_of, add_user, set_balance. cbn.
    by rewrite lookup_insert_eq.
  - intros ->. eexists. split; [reflexivity|]. cbn.
    unfold balance_of, add_user, set_balance. cbn.
    by rewrite lookup_insert_eq.
Qed.

Lemma create_user_keeps_zero_balance_witness :
  create_user default_settings 1 (λ _, "free") (λ _, false) (Some 0%Q)
    (quoting 0 0) (world fresh_db [])
  = Some (Return (Some ("free", 0%Q)), world (add_user 0 fresh_db) []).
Proof.
  refine (proj1 (create_user_keeps_zero_balance default_settings 1
                   (λ _, "free") (λ _, false) (Some 0%Q) (quoting 0 0)
                   fresh_db [] 0 _ eq_refl _ eq_refl)).
  - intros j Hj. lia.
  - lia.
Defined.
